(** * Default Celery configuration: a shallow embedding of
      [airflow/providers/celery/executors/default_celery.py]

    The module is a script executed once at import time.  It reads the
    Airflow configuration object [conf], builds the dictionary
    [DEFAULT_CELERY_CONFIG], writes to the module logger and may raise.
    The embedding models
    - Python values and dictionaries ([pyvalue], [gmap string pyvalue]);
    - exceptions with their class hierarchy ([exn], [isinstance]);
    - the module logger as a list of emitted records;
    - the script as a computation in a small logging-and-exception monad. *)

From Stdlib Require Import ZArith String Ascii List Bool.
From stdpp Require Import gmap strings list fin_maps.
Import ListNotations.

Local Open Scope string_scope.

(** ** Python values *)

Module Py.

(** The values that occur in the configuration dictionaries of the module.
    [conf.getsection] yields strings, integers and booleans; JSON options
    and literals of the script add lists and nested dictionaries. *)
#[warnings="-register-all"]
Inductive pyvalue : Type :=
| VNone
| VBool (b : bool)
| VInt (z : Z)
| VStr (s : string)
| VList (l : list pyvalue)
| VDict (d : gmap string pyvalue).

(** [isinstance(v, dict)] *)
Definition isinstance_dict (v : pyvalue) : bool :=
  match v with
  | VDict _ => true
  | _ => false
  end.

(** [k in d] for a dictionary [d]. *)
Definition dict_contains (k : string) (d : gmap string pyvalue) : bool :=
  match d !! k with
  | Some _ => true
  | None => false
  end.

(** Truth value of a string: the empty string is falsy. *)
Definition truthy_str (s : string) : bool :=
  match s with
  | EmptyString => false
  | String _ _ => true
  end.

(** Truth value of a dictionary: the empty dictionary is falsy. *)
Definition truthy_dict (d : gmap string pyvalue) : bool :=
  negb (bool_decide (d = ∅)).

(** [sub in s] for strings: [sub] occurs in [s] at some position. *)
Fixpoint str_contains (sub s : string) : bool :=
  String.prefix sub s
  || match s with
     | EmptyString => false
     | String _ t => str_contains sub t
     end.

(** [s.startswith((p1, ..., pn))] with a tuple of prefixes. *)
Definition startswith (s : string) (prefixes : list string) : bool :=
  existsb (fun p => String.prefix p s) prefixes.

End Py.
Export Py.

(** ** Exceptions *)

Module Exn.

(** The exception classes the script names, raises or can meet, and two
    representatives of what a configuration read may raise besides them:
    [KeyError] (an [Exception]) and [KeyboardInterrupt] (a [BaseException]
    that is not an [Exception]). *)
Inductive exn_class : Type :=
| BaseException
| KeyboardInterrupt
| Exception
| ValueError
| KeyError
| AirflowException
| AirflowConfigException.

Definition exn_class_eqb (c1 c2 : exn_class) : bool :=
  match c1, c2 with
  | BaseException, BaseException
  | KeyboardInterrupt, KeyboardInterrupt
  | Exception, Exception
  | ValueError, ValueError
  | KeyError, KeyError
  | AirflowException, AirflowException
  | AirflowConfigException, AirflowConfigException => true
  | _, _ => false
  end.

(** The direct base class; [BaseException] is the root. *)
Definition base_class (c : exn_class) : option exn_class :=
  match c with
  | BaseException => None
  | KeyboardInterrupt => Some BaseException
  | Exception => Some BaseException
  | ValueError => Some Exception
  | KeyError => Some Exception
  | AirflowException => Some Exception
  | AirflowConfigException => Some AirflowException
  end.

(** The class itself followed by its ancestors.  The longest chain
    has three steps up to the root, so fuel 3 lists all of them. *)
Fixpoint ancestors (fuel : nat) (c : exn_class) : list exn_class :=
  c :: match fuel with
       | O => []
       | S n => match base_class c with
                | Some b => ancestors n b
                | None => []
                end
       end.

Definition issubclass (c1 c2 : exn_class) : bool :=
  existsb (exn_class_eqb c2) (ancestors 3 c1).

(** A raised exception: its class and [str(e)]. *)
Record exn : Type := Raise { exn_cls : exn_class; exn_str : string }.

Definition isinstance (e : exn) (c : exn_class) : bool :=
  issubclass (exn_cls e) c.

End Exn.
Export Exn.

(** ** The module logger and the script monad *)

Module Script.

Inductive log_level : Type := DEBUG | WARNING.

(** A record emitted on [log = logging.getLogger(__name__)], with its
    message after %-formatting. *)
Record log_record : Type := LogRecord { level : log_level; message : string }.

(** A computation reads the records emitted so far and returns either a
    raised exception or a value, with the records emitted up to that
    point: what was logged before an exception stays logged. *)
Definition M (A : Type) : Type :=
  list log_record -> (exn + A) * list log_record.

Definition ret {A} (a : A) : M A := fun l => (inr a, l).

Definition bind {A B} (c : M A) (k : A -> M B) : M B :=
  fun l =>
    match c l with
    | (inr a, l') => k a l'
    | (inl e, l') => (inl e, l')
    end.

Definition raise {A} (e : exn) : M A := fun l => (inl e, l).

(** A call that cannot log: its outcome becomes the outcome of the
    computation. *)
Definition call {A} (r : exn + A) : M A := fun l => (r, l).

Definition log_debug (msg : string) : M unit :=
  fun l => (inr tt, (l ++ [LogRecord DEBUG msg])%list).

Definition log_warning (msg : string) : M unit :=
  fun l => (inr tt, (l ++ [LogRecord WARNING msg])%list).

(** [except C as e: h e]: the clauses are tried in order and the first
    whose class the exception is an instance of handles it. *)
Fixpoint select_clause {A} (clauses : list (exn_class * (exn -> M A))) (e : exn)
  : option (M A) :=
  match clauses with
  | [] => None
  | (c, h) :: rest => if isinstance e c then Some (h e) else select_clause rest e
  end.

(** [try: body  except ...]: an exception no clause matches propagates. *)
Definition try_except {A} (body : M A) (clauses : list (exn_class * (exn -> M A)))
  : M A :=
  fun l =>
    match body l with
    | (inr a, l') => (inr a, l')
    | (inl e, l') =>
        match select_clause clauses e with
        | Some h => h l'
        | None => (inl e, l')
        end
    end.

End Script.
Export Script.

Declare Scope script_scope.
Delimit Scope script_scope with script.
Notation "x <- c ;; k" := (bind c (fun x => k))
  (at level 63, c at next level, right associativity) : script_scope.
Notation "c ;;; k" := (bind c (fun _ => k))
  (at level 63, right associativity) : script_scope.

(** ** Regular expressions: [re2.search]

    The two patterns of the module use literal characters, [?] after a
    character and [|] between alternatives; the model covers this
    fragment of the RE2 syntax. *)

Module Re2.

Inductive regex : Type :=
| REps
| RChr (c : ascii)
| RCat (r1 r2 : regex)
| RAlt (r1 r2 : regex)
| ROpt (r : regex).

(** One alternative: a sequence of characters, each optionally followed
    by [?]. *)
Fixpoint parse_branch (p : string) : regex :=
  match p with
  | EmptyString => REps
  | String c rest =>
      match rest with
      | String "?"%char rest' => RCat (ROpt (RChr c)) (parse_branch rest')
      | _ => RCat (RChr c) (parse_branch rest)
      end
  end.

(** The pieces of [s] between occurrences of [sep]. *)
Fixpoint split_on (sep : ascii) (s : string) : list string :=
  match s with
  | EmptyString => [EmptyString]
  | String c t =>
      if Ascii.eqb c sep then EmptyString :: split_on sep t
      else match split_on sep t with
           | h :: q => String c h :: q
           | [] => [String c EmptyString]
           end
  end.

(** [re2.compile(pattern)] on the fragment. *)
Definition compile (pattern : string) : regex :=
  match map parse_branch (split_on "|"%char pattern) with
  | [] => REps
  | r :: rs => fold_left RAlt rs r
  end.

(** The remainders of [s] after each prefix of [s] that [r] matches. *)
Fixpoint rmatch (r : regex) (s : string) : list string :=
  match r with
  | REps => [s]
  | RChr c =>
      match s with
      | String c' t => if Ascii.eqb c c' then [t] else []
      | EmptyString => []
      end
  | RCat r1 r2 => flat_map (rmatch r2) (rmatch r1 s)
  | RAlt r1 r2 => (rmatch r1 s ++ rmatch r2 s)%list
  | ROpt r1 => (rmatch r1 s ++ [s])%list
  end.

(** [r] matches a prefix of [s]. *)
Definition match_here (r : regex) (s : string) : bool :=
  match rmatch r s with
  | [] => false
  | _ :: _ => true
  end.

(** Unanchored search: [r] matches at some position of [s]. *)
Fixpoint search_regex (r : regex) (s : string) : bool :=
  match_here r s
  || match s with
     | EmptyString => false
     | String _ t => search_regex r t
     end.

(** The truth value of [re2.search(pattern, s)]: a match object is truthy,
    [None] is falsy. *)
Definition search (pattern s : string) : bool :=
  search_regex (compile pattern) s.

End Re2.

(** ** The configuration object

    [airflow.configuration.conf] is not part of this module; the script
    only calls its accessors.  Each accessor either returns a value or
    raises; none of them writes to this module's logger. *)

Record AirflowConfigParser : Type := {
  conf_get : string -> string -> exn + string;
  conf_getint : string -> string -> exn + Z;
  conf_getboolean : string -> string -> exn + bool;
  (** [conf.getjson(section, key, fallback=...)] *)
  conf_getjson : string -> string -> pyvalue -> exn + pyvalue;
  (** [conf.getsection(section)]: a dictionary, or [None] *)
  conf_getsection : string -> exn + option (gmap string pyvalue);
  conf_has_option : string -> string -> exn + bool;
  conf_get_mandatory_value : string -> string -> exn + string
}.

(** [ssl.CERT_REQUIRED]: the member of the integer enumeration
    [ssl.VerifyMode] with value 2. *)
Module ssl.
Definition CERT_REQUIRED : pyvalue := VInt 2.
End ssl.

(** ** The script [default_celery.py] *)

Module default_celery.

Local Open Scope script_scope.

(** The names the script binds at module level.  [celery_ssl_active] is
    bound at line 86 and [broker_use_ssl] only inside the SSL branches,
    so both are absent until then. *)
Record namespace : Type := Namespace {
  broker_url : string;
  broker_transport_options : gmap string pyvalue;
  broker_transport_options_for_celery : gmap string pyvalue;
  result_backend : string;
  DEFAULT_CELERY_CONFIG : gmap string pyvalue;
  celery_ssl_active : option bool;
  broker_use_ssl : option (gmap string pyvalue)
}.

(** Lines 30-31. *)
Definition _broker_supports_visibility_timeout (url : string) : bool :=
  startswith url ["redis://"; "rediss://"; "sqs://"; "sentinel://"].

(** [d or {}] for [d] a dictionary or [None] (line 38). *)
Definition or_empty_dict (d : option (gmap string pyvalue)) : gmap string pyvalue :=
  match d with
  | Some m => if truthy_dict m then m else ∅
  | None => ∅
  end.

(** Lines 39-41: the dictionary after the conditional assignment. *)
Definition default_visibility_timeout (broker_url : string)
    (broker_transport_options : gmap string pyvalue) : gmap string pyvalue :=
  if negb (dict_contains "visibility_timeout" broker_transport_options) then
    if _broker_supports_visibility_timeout broker_url then
      <["visibility_timeout" := VInt 21600]> broker_transport_options
    else broker_transport_options
  else broker_transport_options.

(** [d.get(k)]: the value, or [None] when the key is absent. *)
Definition dict_get (k : string) (d : gmap string pyvalue) : pyvalue :=
  match d !! k with
  | Some v => v
  | None => VNone
  end.

Definition sentinel_kwargs_error : exn :=
  Raise AirflowException
    "sentinel_kwargs should be written in the correct dictionary format.".

(** Lines 43-51: the copy handed to Celery. *)
Definition copy_for_celery (broker_transport_options : gmap string pyvalue)
  : M (gmap string pyvalue) :=
  let broker_transport_options_for_celery := broker_transport_options in
  if dict_contains "sentinel_kwargs" broker_transport_options then
    try_except
      (let sentinel_kwargs := dict_get "sentinel_kwargs" broker_transport_options in
       if negb (isinstance_dict sentinel_kwargs) then raise (Raise ValueError EmptyString)
       else ret (<["sentinel_kwargs" := sentinel_kwargs]>
                   broker_transport_options_for_celery))
      [(Exception, fun _ => raise sentinel_kwargs_error)]
  else ret broker_transport_options_for_celery.

(** The message of line 56. *)
Definition result_backend_debug : string :=
  "Value for celery result_backend not found. Using sql_alchemy_conn with db+ prefix.".

(** Lines 53-57. *)
Definition read_result_backend (conf : AirflowConfigParser) : M string :=
  has_option <- call (conf_has_option conf "celery" "RESULT_BACKEND") ;;
  if has_option : bool then
    call (conf_get_mandatory_value conf "celery" "RESULT_BACKEND")
  else
    log_debug result_backend_debug ;;;
    sql_alchemy_conn <- call (conf_get conf "database" "SQL_ALCHEMY_CONN") ;;
    ret ("db+" ++ sql_alchemy_conn).

(** Lines 59-75: the dictionary display, its values evaluated in order. *)
Definition build_default_celery_config (conf : AirflowConfigParser)
    (broker_url : string)
    (broker_transport_options_for_celery : gmap string pyvalue)
    (result_backend : string) : M (gmap string pyvalue) :=
  worker_prefetch_multiplier <-
    call (conf_getint conf "celery" "worker_prefetch_multiplier") ;;
  task_default_queue <- call (conf_get conf "operators" "DEFAULT_QUEUE") ;;
  task_default_exchange <- call (conf_get conf "operators" "DEFAULT_QUEUE") ;;
  task_track_started <- call (conf_getboolean conf "celery" "task_track_started") ;;
  database_engine_options <-
    call (conf_getjson conf "celery" "result_backend_sqlalchemy_engine_options"
            (VDict ∅)) ;;
  worker_concurrency <- call (conf_getint conf "celery" "WORKER_CONCURRENCY") ;;
  worker_enable_remote_control <-
    call (conf_getboolean conf "celery" "worker_enable_remote_control") ;;
  ret (list_to_map
         [("accept_content", VList [VStr "json"]);
          ("event_serializer", VStr "json");
          ("worker_prefetch_multiplier", VInt worker_prefetch_multiplier);
          ("task_acks_late", VBool true);
          ("task_default_queue", VStr task_default_queue);
          ("task_default_exchange", VStr task_default_exchange);
          ("task_track_started", VBool task_track_started);
          ("broker_url", VStr broker_url);
          ("broker_transport_options", VDict broker_transport_options_for_celery);
          ("result_backend", VStr result_backend);
          ("database_engine_options", database_engine_options);
          ("worker_concurrency", VInt worker_concurrency);
          ("worker_enable_remote_control", VBool worker_enable_remote_control)]).

(** Lines 36-75: everything up to and including the assignment of
    [DEFAULT_CELERY_CONFIG]. *)
Definition assemble_default_config (conf : AirflowConfigParser) : M namespace :=
  broker_url <- call (conf_get conf "celery" "BROKER_URL") ;;
  section <- call (conf_getsection conf "celery_broker_transport_options") ;;
  let broker_transport_options :=
    default_visibility_timeout broker_url (or_empty_dict section) in
  broker_transport_options_for_celery <- copy_for_celery broker_transport_options ;;
  result_backend <- read_result_backend conf ;;
  config <- build_default_celery_config conf broker_url
              broker_transport_options_for_celery result_backend ;;
  ret {| broker_url := broker_url;
         broker_transport_options := broker_transport_options;
         broker_transport_options_for_celery := broker_transport_options_for_celery;
         result_backend := result_backend;
         DEFAULT_CELERY_CONFIG := config;
         celery_ssl_active := None;
         broker_use_ssl := None |}.

(** Lines 78-83. *)
Definition _get_celery_ssl_active (conf : AirflowConfigParser) : M bool :=
  try_except
    (call (conf_getboolean conf "celery" "SSL_ACTIVE"))
    [(AirflowConfigException,
      fun _ => log_warning "Celery Executor will run without SSL" ;;; ret false)].

(** The record line 82 emits. *)
Definition ssl_warning : log_record :=
  LogRecord WARNING "Celery Executor will run without SSL".

Definition unsupported_broker_message : string :=
  "The broker you configured does not support SSL_ACTIVE to be True. "
  ++ "Please use RabbitMQ or Redis if you would like to use SSL for broker.".

Definition ssl_options_missing_error : exn :=
  Raise AirflowException
    ("AirflowConfigException: SSL_ACTIVE is True, "
     ++ "please ensure SSL_KEY, "
     ++ "SSL_CERT and SSL_CACERT are set").

Definition unknown_ssl_error (e : exn) : exn :=
  Raise AirflowException
    ("Exception: There was an unknown Celery SSL Error. Please ensure you want to use SSL and/or have "
     ++ "all necessary certs and key (" ++ exn_str e ++ ").").

(** Lines 91-96: the dictionary display of the AMQP branch. *)
Definition plain_ssl_options (keyfile certfile ca_certs : string)
  : gmap string pyvalue :=
  list_to_map
    [("keyfile", VStr keyfile);
     ("certfile", VStr certfile);
     ("ca_certs", VStr ca_certs);
     ("cert_reqs", ssl.CERT_REQUIRED)].

(** Lines 98-103: the dictionary display of the Redis/Sentinel branch. *)
Definition prefixed_ssl_options (ssl_keyfile ssl_certfile ssl_ca_certs : string)
  : gmap string pyvalue :=
  list_to_map
    [("ssl_keyfile", VStr ssl_keyfile);
     ("ssl_certfile", VStr ssl_certfile);
     ("ssl_ca_certs", VStr ssl_ca_certs);
     ("ssl_cert_reqs", ssl.CERT_REQUIRED)].

(** Lines 90-108: the value bound to [broker_use_ssl], or the exception
    of the last branch.  The values of a display are evaluated in order. *)
Definition select_broker_use_ssl (conf : AirflowConfigParser) (broker_url : string)
  : M (gmap string pyvalue) :=
  if truthy_str broker_url && str_contains "amqp://" broker_url then
    keyfile <- call (conf_get conf "celery" "SSL_KEY") ;;
    certfile <- call (conf_get conf "celery" "SSL_CERT") ;;
    ca_certs <- call (conf_get conf "celery" "SSL_CACERT") ;;
    ret (plain_ssl_options keyfile certfile ca_certs)
  else if truthy_str broker_url && Re2.search "rediss?://|sentinel://" broker_url then
    ssl_keyfile <- call (conf_get conf "celery" "SSL_KEY") ;;
    ssl_certfile <- call (conf_get conf "celery" "SSL_CERT") ;;
    ssl_ca_certs <- call (conf_get conf "celery" "SSL_CACERT") ;;
    ret (prefixed_ssl_options ssl_keyfile ssl_certfile ssl_ca_certs)
  else raise (Raise AirflowException unsupported_broker_message).

(** Line 86: [celery_ssl_active = ...] binds the name. *)
Definition bind_celery_ssl_active (active : bool) (ns : namespace) : namespace :=
  {| broker_url := broker_url ns;
     broker_transport_options := broker_transport_options ns;
     broker_transport_options_for_celery := broker_transport_options_for_celery ns;
     result_backend := result_backend ns;
     DEFAULT_CELERY_CONFIG := DEFAULT_CELERY_CONFIG ns;
     celery_ssl_active := Some active;
     broker_use_ssl := broker_use_ssl ns |}.

(** Lines 91/98 and 110: [broker_use_ssl = ...] binds the name and
    [DEFAULT_CELERY_CONFIG["broker_use_ssl"] = broker_use_ssl] stores the
    same dictionary under the key. *)
Definition bind_broker_use_ssl (use_ssl : gmap string pyvalue) (ns : namespace)
  : namespace :=
  {| broker_url := broker_url ns;
     broker_transport_options := broker_transport_options ns;
     broker_transport_options_for_celery := broker_transport_options_for_celery ns;
     result_backend := result_backend ns;
     DEFAULT_CELERY_CONFIG :=
       <["broker_use_ssl" := VDict use_ssl]> (DEFAULT_CELERY_CONFIG ns);
     celery_ssl_active := celery_ssl_active ns;
     broker_use_ssl := Some use_ssl |}.

(** Lines 86-121: the SSL probe and the [try] statement. *)
Definition configure_broker_ssl (conf : AirflowConfigParser) (ns : namespace)
  : M namespace :=
  active <- _get_celery_ssl_active conf ;;
  let ns := bind_celery_ssl_active active ns in
  try_except
    (if active : bool then
       use_ssl <- select_broker_use_ssl conf (broker_url ns) ;;
       ret (bind_broker_use_ssl use_ssl ns)
     else ret ns)
    [(AirflowConfigException, fun _ => raise ssl_options_missing_error);
     (Exception, fun e => raise (unknown_ssl_error e))].

Definition result_backend_warning (result_backend : string) : string :=
  "You have configured a result_backend of " ++ result_backend
  ++ ", it is highly recommended "
  ++ "to use an alternative result_backend (i.e. a database).".

(** Lines 123-128. *)
Definition check_result_backend (ns : namespace) : M unit :=
  if Re2.search "rediss?://|amqp://|rpc://" (result_backend ns) then
    log_warning (result_backend_warning (result_backend ns))
  else ret tt.

(** The records lines 123-128 add to the log. *)
Definition result_backend_records (result_backend : string) : list log_record :=
  if Re2.search "rediss?://|amqp://|rpc://" result_backend then
    [LogRecord WARNING (result_backend_warning result_backend)]
  else [].

(** The whole script: the namespace it leaves behind, or the exception
    that aborts the import. *)
Definition module_body (conf : AirflowConfigParser) : M namespace :=
  ns <- assemble_default_config conf ;;
  ns <- configure_broker_ssl conf ns ;;
  check_result_backend ns ;;;
  ret ns.

End default_celery.

(** ** A table-backed configuration object

    A small implementation of the accessors over a table of option values
    and a table of sections, to run the script on concrete configurations.
    An absent option, or one of the wrong type, raises
    [AirflowConfigException]. *)

Module SampleConf.

Import default_celery.

Definition not_found (section key : string) : exn :=
  Raise AirflowConfigException
    ("section/key [" ++ section ++ "/" ++ key ++ "] not found in config").

Definition table_conf (options : gmap (string * string) pyvalue)
    (sections : gmap string (gmap string pyvalue)) : AirflowConfigParser :=
  {| conf_get s k :=
       match options !! (s, k) with
       | Some (VStr v) => inr v
       | _ => inl (not_found s k)
       end;
     conf_getint s k :=
       match options !! (s, k) with
       | Some (VInt v) => inr v
       | _ => inl (not_found s k)
       end;
     conf_getboolean s k :=
       match options !! (s, k) with
       | Some (VBool v) => inr v
       | _ => inl (not_found s k)
       end;
     conf_getjson s k fallback :=
       match options !! (s, k) with
       | Some v => inr v
       | None => inr fallback
       end;
     conf_getsection s := inr (sections !! s);
     conf_has_option s k :=
       inr (match options !! (s, k) with Some _ => true | None => false end);
     conf_get_mandatory_value s k :=
       match options !! (s, k) with
       | Some (VStr v) => inr v
       | _ => inl (not_found s k)
       end |}.

(** The options every run of the script reads, for a given broker URL. *)
Definition base_options (url : string) : gmap (string * string) pyvalue :=
  list_to_map
    [(("celery", "BROKER_URL"), VStr url);
     (("database", "SQL_ALCHEMY_CONN"), VStr "postgresql://airflow@db/airflow");
     (("celery", "worker_prefetch_multiplier"), VInt 1);
     (("operators", "DEFAULT_QUEUE"), VStr "default");
     (("celery", "task_track_started"), VBool true);
     (("celery", "WORKER_CONCURRENCY"), VInt 16);
     (("celery", "worker_enable_remote_control"), VBool true)].

(** The same with SSL switched on and the three certificate options set. *)
Definition ssl_options (url : string) : gmap (string * string) pyvalue :=
  <[("celery", "SSL_ACTIVE") := VBool true]>
    (<[("celery", "SSL_KEY") := VStr "/etc/ssl/key.pem"]>
       (<[("celery", "SSL_CERT") := VStr "/etc/ssl/cert.pem"]>
          (<[("celery", "SSL_CACERT") := VStr "/etc/ssl/ca.pem"]>
             (base_options url)))).

(** A transport-options section holding the given entries. *)
Definition transport_section (entries : gmap string pyvalue)
  : gmap string (gmap string pyvalue) :=
  {["celery_broker_transport_options" := entries]}.

(** A configuration object whose [getboolean] raises [e] for
    [celery.SSL_ACTIVE] and that otherwise behaves like [conf]. *)
Definition failing_ssl_active (e : exn) (conf : AirflowConfigParser)
  : AirflowConfigParser :=
  {| conf_get := conf_get conf;
     conf_getint := conf_getint conf;
     conf_getboolean s k :=
       if String.eqb s "celery" && String.eqb k "SSL_ACTIVE" then inl e
       else conf_getboolean conf s k;
     conf_getjson := conf_getjson conf;
     conf_getsection := conf_getsection conf;
     conf_has_option := conf_has_option conf;
     conf_get_mandatory_value := conf_get_mandatory_value conf |}.

(** The value and the log of a run, to name the outcome of a phase on a
    concrete configuration; [default] stands in when the run raised. *)
Definition value_of {A : Type} (default : A) (run : (exn + A) * list log_record)
  : A :=
  match fst run with
  | inr a => a
  | inl _ => default
  end.

Definition log_of {A : Type} (run : (exn + A) * list log_record)
  : list log_record :=
  snd run.

(** The run returned a value. *)
Definition succeeded {A : Type} (run : (exn + A) * list log_record) : bool :=
  match fst run with
  | inr _ => true
  | inl _ => false
  end.

Definition empty_namespace : namespace :=
  {| broker_url := EmptyString;
     broker_transport_options := ∅;
     broker_transport_options_for_celery := ∅;
     result_backend := EmptyString;
     DEFAULT_CELERY_CONFIG := ∅;
     celery_ssl_active := None;
     broker_use_ssl := None |}.

(** The namespace and the log after lines 36-75, after lines 36-121 and at
    the end of the script, started with an empty log. *)
Definition assembled (conf : AirflowConfigParser) : namespace :=
  value_of empty_namespace (assemble_default_config conf []).

Definition assembled_log (conf : AirflowConfigParser) : list log_record :=
  log_of (assemble_default_config conf []).

Definition configured (conf : AirflowConfigParser) : namespace :=
  value_of empty_namespace
    (configure_broker_ssl conf (assembled conf) (assembled_log conf)).

Definition configured_log (conf : AirflowConfigParser) : list log_record :=
  log_of (configure_broker_ssl conf (assembled conf) (assembled_log conf)).

Definition completed (conf : AirflowConfigParser) : namespace :=
  value_of empty_namespace (module_body conf []).

Definition completed_log (conf : AirflowConfigParser) : list log_record :=
  log_of (module_body conf []).

(** A Redis broker with one transport option set by the user. *)
Definition redis_conf : AirflowConfigParser :=
  table_conf (base_options "redis://broker:6379/0")
    (transport_section {["socket_timeout" := VInt 30]}).

(** The same broker with [visibility_timeout] set by the user. *)
Definition redis_timeout_conf : AirflowConfigParser :=
  table_conf (base_options "redis://broker:6379/0")
    (transport_section {["visibility_timeout" := VInt 3600]}).

(** A Sentinel broker whose [sentinel_kwargs] is a dictionary. *)
Definition sentinel_dict_conf : AirflowConfigParser :=
  table_conf (base_options "sentinel://sentinel-1:26379")
    (transport_section
       {["sentinel_kwargs" := VDict {["password" := VStr "secret"]}]}).

(** The same with [sentinel_kwargs] left as the text of the option. *)
Definition sentinel_text_conf : AirflowConfigParser :=
  table_conf (base_options "sentinel://sentinel-1:26379")
    (transport_section {["sentinel_kwargs" := VStr "{password: secret}"]}).

(** A configuration that sets [celery.RESULT_BACKEND]. *)
Definition result_backend_conf (backend : string) : AirflowConfigParser :=
  table_conf
    (<[("celery", "RESULT_BACKEND") := VStr backend]>
       (base_options "redis://broker:6379/0"))
    ∅.

(** SSL switched on, for a given broker URL. *)
Definition ssl_conf (url : string) : AirflowConfigParser :=
  table_conf (ssl_options url) ∅.

End SampleConf.

(** ** Failing reads and further configurations *)

Module Scenarios.

Import default_celery SampleConf.

(** The exception a call raised, if it raised. *)
Definition raised {A : Type} (r : exn + A) : option exn :=
  match r with
  | inl e => Some e
  | inr _ => None
  end.

(** The exception of the first call, in evaluation order, that raised. *)
Fixpoint first_failure (calls : list (option exn)) : option exn :=
  match calls with
  | [] => None
  | Some e :: _ => Some e
  | None :: rest => first_failure rest
  end.

(** The three reads of an SSL branch (lines 92-94 and 99-101), in order. *)
Definition ssl_reads (conf : AirflowConfigParser) : list (option exn) :=
  [raised (conf_get conf "celery" "SSL_KEY");
   raised (conf_get conf "celery" "SSL_CERT");
   raised (conf_get conf "celery" "SSL_CACERT")].

(** The reads of lines 36-75, over both branches of line 53. *)
Definition assembly_reads (conf : AirflowConfigParser) : list (option exn) :=
  [raised (conf_get conf "celery" "BROKER_URL");
   raised (conf_getsection conf "celery_broker_transport_options");
   raised (conf_has_option conf "celery" "RESULT_BACKEND");
   raised (conf_get_mandatory_value conf "celery" "RESULT_BACKEND");
   raised (conf_get conf "database" "SQL_ALCHEMY_CONN");
   raised (conf_getint conf "celery" "worker_prefetch_multiplier");
   raised (conf_get conf "operators" "DEFAULT_QUEUE");
   raised (conf_getboolean conf "celery" "task_track_started");
   raised (conf_getjson conf "celery" "result_backend_sqlalchemy_engine_options"
             (VDict ∅));
   raised (conf_getint conf "celery" "WORKER_CONCURRENCY");
   raised (conf_getboolean conf "celery" "worker_enable_remote_control")].

(** The records line 56 adds: the debug message, when
    [celery.RESULT_BACKEND] is not set. *)
Definition result_backend_debug_records (conf : AirflowConfigParser)
  : list log_record :=
  match conf_has_option conf "celery" "RESULT_BACKEND" with
  | inr false => [LogRecord DEBUG result_backend_debug]
  | _ => []
  end.

(** The records the probe of lines 78-83 adds: the warning, when the read
    of [celery.SSL_ACTIVE] raised. *)
Definition ssl_probe_records (conf : AirflowConfigParser) : list log_record :=
  match conf_getboolean conf "celery" "SSL_ACTIVE" with
  | inl _ => [ssl_warning]
  | inr _ => []
  end.

(** The keys of the dictionary display of lines 59-75. *)
Definition default_config_keys : gset string :=
  {["accept_content"; "event_serializer"; "worker_prefetch_multiplier";
    "task_acks_late"; "task_default_queue"; "task_default_exchange";
    "task_track_started"; "broker_url"; "broker_transport_options";
    "result_backend"; "database_engine_options"; "worker_concurrency";
    "worker_enable_remote_control"]}.

(** A configuration object whose [get] raises [e] for one option and that
    otherwise behaves like [conf]. *)
Definition failing_get (e : exn) (section key : string)
    (conf : AirflowConfigParser) : AirflowConfigParser :=
  {| conf_get s k :=
       if String.eqb s section && String.eqb k key then inl e
       else conf_get conf s k;
     conf_getint := conf_getint conf;
     conf_getboolean := conf_getboolean conf;
     conf_getjson := conf_getjson conf;
     conf_getsection := conf_getsection conf;
     conf_has_option := conf_has_option conf;
     conf_get_mandatory_value := conf_get_mandatory_value conf |}.

(** SSL switched on with [celery.SSL_CERT] left unset. *)
Definition ssl_without_cert_conf (url : string) : AirflowConfigParser :=
  table_conf (delete ("celery", "SSL_CERT") (ssl_options url)) ∅.

(** [celery.SSL_ACTIVE] set to [False]. *)
Definition ssl_inactive_conf (url : string) : AirflowConfigParser :=
  table_conf (<[("celery", "SSL_ACTIVE") := VBool false]> (base_options url)) ∅.

(** [celery.WORKER_CONCURRENCY] left unset. *)
Definition no_concurrency_conf : AirflowConfigParser :=
  table_conf
    (delete ("celery", "WORKER_CONCURRENCY") (base_options "redis://broker:6379/0"))
    ∅.

(** An AMQP broker with two transport options set by the user. *)
Definition amqp_options_conf : AirflowConfigParser :=
  table_conf (base_options "amqp://guest@rabbit:5672//")
    (transport_section
       {["confirm_publish" := VBool true; "max_retries" := VInt 3]}).

End Scenarios.

(** * Properties *)

Import default_celery.

(** ** Running the monad *)

Section MonadFacts.
Context {A B : Type}.

Lemma bind_call_inr (r : exn + A) (a : A) (k : A -> M B) l :
  r = inr a -> bind (call r) k l = k a l.
Proof. intros ->. reflexivity. Qed.

Lemma bind_inr (c : M A) (k : A -> M B) l b l' :
  bind c k l = (inr b, l') ->
  exists a l1, c l = (inr a, l1) /\ k a l1 = (inr b, l').
Proof.
  unfold bind. destruct (c l) as [[e | a] l1]; [discriminate |].
  intros H. exists a, l1. split; [reflexivity | exact H].
Qed.

Lemma bind_run (c : M A) (k : A -> M B) l a l1 :
  c l = (inr a, l1) -> bind c k l = k a l1.
Proof. unfold bind. intros ->. reflexivity. Qed.

Lemma bind_fail (c : M A) (k : A -> M B) l e l1 :
  c l = (inl e, l1) -> bind c k l = (inl e, l1).
Proof. unfold bind. intros ->. reflexivity. Qed.

Lemma call_inr (r : exn + A) l a l' :
  call r l = (inr a, l') -> r = inr a /\ l' = l.
Proof. unfold call. intros H. injection H as -> ->. split; reflexivity. Qed.

End MonadFacts.

(** ** The regular expressions of the script *)

Section Regex.
Import Re2.

Lemma match_here_chr c k a t :
  match_here (RCat (RChr c) k) (String a t) = Ascii.eqb c a && match_here k t.
Proof.
  unfold match_here. cbn [rmatch]. destruct (Ascii.eqb c a); [| reflexivity].
  cbn [flat_map andb]. by rewrite app_nil_r.
Qed.

Lemma match_here_alt r1 r2 s :
  match_here (RAlt r1 r2) s = match_here r1 s || match_here r2 s.
Proof. unfold match_here. cbn [rmatch]. by destruct (rmatch r1 s). Qed.

Lemma match_here_opt c k s :
  match_here (RCat (ROpt (RChr c)) k) s
  = match_here (RCat (RChr c) k) s || match_here k s.
Proof.
  unfold match_here. cbn [rmatch]. rewrite flat_map_app. cbn [flat_map].
  rewrite app_nil_r. by destruct (flat_map (rmatch k) _).
Qed.

Lemma prefix_cons c w a t :
  String.prefix (String c w) (String a t) = Ascii.eqb c a && String.prefix w t.
Proof.
  cbn [String.prefix]. destruct (ascii_dec c a) as [-> | Hne].
  - by rewrite Ascii.eqb_refl.
  - apply Ascii.eqb_neq in Hne. by rewrite Hne.
Qed.

(** One character of a literal, on both sides. *)
Ltac peel t :=
  destruct t as [| ?a t]; [reflexivity |];
  rewrite ?match_here_chr, ?prefix_cons, <- ?andb_orb_distrib_r;
  f_equal.

Lemma match_here_scheme_end s :
  match_here (parse_branch "://") s = String.prefix "://" s.
Proof. cbn [parse_branch]. do 3 peel s. by destruct s. Qed.

Lemma match_here_sentinel s :
  match_here (parse_branch "sentinel://") s = String.prefix "sentinel://" s.
Proof. cbn [parse_branch]. do 8 peel s. apply match_here_scheme_end. Qed.

Lemma match_here_amqp s :
  match_here (parse_branch "amqp://") s = String.prefix "amqp://" s.
Proof. cbn [parse_branch]. do 4 peel s. apply match_here_scheme_end. Qed.

Lemma match_here_rpc s :
  match_here (parse_branch "rpc://") s = String.prefix "rpc://" s.
Proof. cbn [parse_branch]. do 3 peel s. apply match_here_scheme_end. Qed.

Lemma match_here_redis s :
  match_here (parse_branch "rediss?://") s
  = String.prefix "redis://" s || String.prefix "rediss://" s.
Proof.
  cbn [parse_branch]. do 5 peel s.
  rewrite match_here_opt, orb_comm. f_equal.
  - apply match_here_scheme_end.
  - peel s. apply match_here_scheme_end.
Qed.

(** Decides an equation between disjunctions of prefix and substring
    tests by cases on their values. *)
Ltac orb_cases :=
  repeat match goal with
         | |- context [String.prefix ?p ?t] =>
             generalize (String.prefix p t); intros ?
         | |- context [str_contains ?p ?t] =>
             generalize (str_contains p t); intros ?
         end;
  repeat match goal with b : bool |- _ => destruct b end; reflexivity.

(** Unanchored search for alternatives of literals is substring search. *)
Lemma search_broker_pattern s :
  search "rediss?://|sentinel://" s
  = str_contains "redis://" s || str_contains "rediss://" s
    || str_contains "sentinel://" s.
Proof.
  unfold search.
  change (compile "rediss?://|sentinel://")
    with (RAlt (parse_branch "rediss?://") (parse_branch "sentinel://")).
  induction s as [| a s IH]; [reflexivity |].
  cbn [search_regex str_contains]. rewrite IH.
  rewrite match_here_alt, match_here_redis, match_here_sentinel.
  orb_cases.
Qed.

Lemma search_backend_pattern s :
  search "rediss?://|amqp://|rpc://" s
  = str_contains "redis://" s || str_contains "rediss://" s
    || str_contains "amqp://" s || str_contains "rpc://" s.
Proof.
  unfold search.
  change (compile "rediss?://|amqp://|rpc://")
    with (RAlt (RAlt (parse_branch "rediss?://") (parse_branch "amqp://"))
            (parse_branch "rpc://")).
  induction s as [| a s IH]; [reflexivity |].
  cbn [search_regex str_contains]. rewrite IH.
  rewrite !match_here_alt, match_here_redis, match_here_amqp, match_here_rpc.
  orb_cases.
Qed.

End Regex.

(** ** Transport options (lines 38-51) *)

Section TransportOptions.
Implicit Types (opts : gmap string pyvalue) (url : string).

(** [d or {}] is [d] for every dictionary [d], empty or not. *)
Lemma or_empty_dict_Some opts : or_empty_dict (Some opts) = opts.
Proof.
  unfold or_empty_dict, truthy_dict. case_bool_decide; [by subst | done].
Qed.

Lemma default_visibility_timeout_other url opts k :
  k <> "visibility_timeout" ->
  default_visibility_timeout url opts !! k = opts !! k.
Proof.
  intros Hk. unfold default_visibility_timeout.
  destruct (negb _); [| done].
  destruct (_broker_supports_visibility_timeout url); [| done].
  by rewrite lookup_insert_ne.
Qed.

Lemma copy_for_celery_absent opts l :
  opts !! "sentinel_kwargs" = None -> copy_for_celery opts l = (inr opts, l).
Proof. intros H. unfold copy_for_celery, dict_contains. by rewrite H. Qed.

Lemma copy_for_celery_dict opts d l :
  opts !! "sentinel_kwargs" = Some (VDict d) ->
  copy_for_celery opts l = (inr opts, l).
Proof.
  intros H. unfold copy_for_celery, dict_contains, dict_get. rewrite H.
  cbn. by rewrite insert_id.
Qed.

Lemma copy_for_celery_not_dict opts v l :
  opts !! "sentinel_kwargs" = Some v -> isinstance_dict v = false ->
  copy_for_celery opts l = (inl sentinel_kwargs_error, l).
Proof.
  intros H Hv. unfold copy_for_celery, dict_contains, dict_get. rewrite H.
  rewrite Hv. reflexivity.
Qed.

Lemma copy_for_celery_inr opts d l l' :
  copy_for_celery opts l = (inr d, l') -> d = opts /\ l' = l.
Proof.
  destruct (opts !! "sentinel_kwargs") as [v |] eqn:Hv.
  - destruct (isinstance_dict v) eqn:Hd.
    + destruct v; try discriminate Hd.
      rewrite (copy_for_celery_dict _ _ _ Hv). intros [= <- <-]. done.
    + by rewrite (copy_for_celery_not_dict _ _ _ Hv Hd).
  - rewrite (copy_for_celery_absent _ _ Hv). intros [= <- <-]. done.
Qed.

End TransportOptions.

(** ** The assembly phase (lines 36-75) *)

Section Assemble.
Variable conf : AirflowConfigParser.

Lemma build_default_celery_config_inr url opts rb l cfg l' :
  build_default_celery_config conf url opts rb l = (inr cfg, l') ->
  l' = l /\
  cfg !! "broker_url" = Some (VStr url) /\
  cfg !! "broker_transport_options" = Some (VDict opts) /\
  cfg !! "result_backend" = Some (VStr rb) /\
  cfg !! "broker_use_ssl" = None.
Proof.
  unfold build_default_celery_config, bind, call, ret.
  repeat match goal with
         | |- context [match ?r with inl _ => _ | inr _ => _ end] =>
             destruct r; [discriminate |]
         end.
  intros [= <- <-]. repeat split; vm_compute; reflexivity.
Qed.

Lemma assemble_default_config_inr l ns l' :
  assemble_default_config conf l = (inr ns, l') ->
  exists section,
    conf_get conf "celery" "BROKER_URL" = inr (broker_url ns) /\
    conf_getsection conf "celery_broker_transport_options" = inr section /\
    broker_transport_options ns =
      default_visibility_timeout (broker_url ns) (or_empty_dict section) /\
    broker_transport_options_for_celery ns = broker_transport_options ns /\
    read_result_backend conf l = (inr (result_backend ns), l') /\
    DEFAULT_CELERY_CONFIG ns !! "broker_transport_options" =
      Some (VDict (broker_transport_options_for_celery ns)) /\
    DEFAULT_CELERY_CONFIG ns !! "result_backend" = Some (VStr (result_backend ns)) /\
    DEFAULT_CELERY_CONFIG ns !! "broker_use_ssl" = None /\
    celery_ssl_active ns = None /\
    broker_use_ssl ns = None.
Proof.
  unfold assemble_default_config. intros H.
  apply bind_inr in H as (url & l1 & Hurl & H). apply call_inr in Hurl as [Hurl ->].
  apply bind_inr in H as (section & l1 & Hsec & H). apply call_inr in Hsec as [Hsec ->].
  apply bind_inr in H as (d & l1 & Hcopy & H).
  apply copy_for_celery_inr in Hcopy as [-> ->].
  apply bind_inr in H as (rb & l1 & Hrb & H).
  apply bind_inr in H as (cfg & l2 & Hcfg & H).
  apply build_default_celery_config_inr in Hcfg as (-> & _ & Hopts & Hback & Hssl).
  injection H as <- <-. cbn. exists section. repeat split; assumption || reflexivity.
Qed.

End Assemble.

(** ** The SSL phase (lines 78-121) *)

Section Ssl.
Variable conf : AirflowConfigParser.

Lemma get_celery_ssl_active_value b l :
  conf_getboolean conf "celery" "SSL_ACTIVE" = inr b ->
  _get_celery_ssl_active conf l = (inr b, l).
Proof.
  intros H. unfold _get_celery_ssl_active, try_except, call. by rewrite H.
Qed.

Lemma get_celery_ssl_active_swallowed e l :
  conf_getboolean conf "celery" "SSL_ACTIVE" = inl e ->
  isinstance e AirflowConfigException = true ->
  _get_celery_ssl_active conf l = (inr false, (l ++ [ssl_warning])%list).
Proof.
  intros H He. unfold _get_celery_ssl_active, try_except, call. rewrite H.
  cbn [select_clause]. rewrite He. reflexivity.
Qed.

Lemma get_celery_ssl_active_propagated e l :
  conf_getboolean conf "celery" "SSL_ACTIVE" = inl e ->
  isinstance e AirflowConfigException = false ->
  _get_celery_ssl_active conf l = (inl e, l).
Proof.
  intros H He. unfold _get_celery_ssl_active, try_except, call. rewrite H.
  cbn [select_clause]. rewrite He. reflexivity.
Qed.

Lemma select_broker_use_ssl_amqp url key cert cacert l :
  truthy_str url = true ->
  str_contains "amqp://" url = true ->
  conf_get conf "celery" "SSL_KEY" = inr key ->
  conf_get conf "celery" "SSL_CERT" = inr cert ->
  conf_get conf "celery" "SSL_CACERT" = inr cacert ->
  select_broker_use_ssl conf url l = (inr (plain_ssl_options key cert cacert), l).
Proof.
  intros Hurl Hamqp Hk Hc Hca. unfold select_broker_use_ssl.
  rewrite Hurl, Hamqp. cbn [andb].
  rewrite (bind_call_inr _ _ _ _ Hk), (bind_call_inr _ _ _ _ Hc),
    (bind_call_inr _ _ _ _ Hca).
  reflexivity.
Qed.

Lemma select_broker_use_ssl_redis url key cert cacert l :
  str_contains "amqp://" url = false ->
  truthy_str url = true ->
  Re2.search "rediss?://|sentinel://" url = true ->
  conf_get conf "celery" "SSL_KEY" = inr key ->
  conf_get conf "celery" "SSL_CERT" = inr cert ->
  conf_get conf "celery" "SSL_CACERT" = inr cacert ->
  select_broker_use_ssl conf url l = (inr (prefixed_ssl_options key cert cacert), l).
Proof.
  intros Hamqp Hurl Hre Hk Hc Hca. unfold select_broker_use_ssl.
  rewrite Hamqp, Hurl, Hre. cbn [andb].
  rewrite (bind_call_inr _ _ _ _ Hk), (bind_call_inr _ _ _ _ Hc),
    (bind_call_inr _ _ _ _ Hca).
  reflexivity.
Qed.

Lemma select_broker_use_ssl_unsupported url l :
  str_contains "amqp://" url = false ->
  Re2.search "rediss?://|sentinel://" url = false ->
  select_broker_use_ssl conf url l =
    (inl (Raise AirflowException unsupported_broker_message), l).
Proof.
  intros Hamqp Hre. unfold select_broker_use_ssl.
  rewrite Hamqp, Hre, !andb_false_r. reflexivity.
Qed.

Lemma configure_broker_ssl_inactive ns l l1 :
  _get_celery_ssl_active conf l = (inr false, l1) ->
  configure_broker_ssl conf ns l = (inr (bind_celery_ssl_active false ns), l1).
Proof.
  intros H. unfold configure_broker_ssl. rewrite (bind_run _ _ _ _ _ H).
  reflexivity.
Qed.

Lemma configure_broker_ssl_active ns l m :
  conf_getboolean conf "celery" "SSL_ACTIVE" = inr true ->
  select_broker_use_ssl conf (broker_url ns) l = (inr m, l) ->
  configure_broker_ssl conf ns l =
    (inr (bind_broker_use_ssl m (bind_celery_ssl_active true ns)), l).
Proof.
  intros Hact Hsel. unfold configure_broker_ssl.
  rewrite (bind_run _ _ _ _ _ (get_celery_ssl_active_value _ l Hact)).
  unfold try_except. cbn [bind_celery_ssl_active broker_url].
  rewrite (bind_run _ _ _ _ _ Hsel). reflexivity.
Qed.

(** Both handlers of the [try] statement raise, so the phase succeeds only
    if its body does, and it leaves everything assembled before it alone. *)
Lemma configure_broker_ssl_inr ns l ns' l' :
  configure_broker_ssl conf ns l = (inr ns', l') ->
  broker_url ns' = broker_url ns /\
  broker_transport_options ns' = broker_transport_options ns /\
  broker_transport_options_for_celery ns' = broker_transport_options_for_celery ns /\
  result_backend ns' = result_backend ns /\
  (forall k, k <> "broker_use_ssl" ->
     DEFAULT_CELERY_CONFIG ns' !! k = DEFAULT_CELERY_CONFIG ns !! k).
Proof.
  unfold configure_broker_ssl. intros H.
  apply bind_inr in H as (active & l1 & _ & H).
  unfold try_except in H. destruct active.
  - unfold bind at 1 in H.
    destruct (select_broker_use_ssl _ _ _) as [[e | m] l2].
    + cbn [select_clause] in H.
      destruct (isinstance e AirflowConfigException); [discriminate |].
      destruct (isinstance e Exception); discriminate.
    + injection H as <- <-. cbn. repeat split; try reflexivity.
      intros k Hk. by rewrite lookup_insert_ne.
  - injection H as <- <-. cbn. repeat split; reflexivity.
Qed.

End Ssl.

(** ** The whole script *)

Section ModuleBody.
Variable conf : AirflowConfigParser.

Lemma module_body_inr l ns l' :
  module_body conf l = (inr ns, l') ->
  exists ns0 l0 l1,
    assemble_default_config conf l = (inr ns0, l0) /\
    configure_broker_ssl conf ns0 l0 = (inr ns, l1) /\
    check_result_backend ns l1 = (inr tt, l').
Proof.
  unfold module_body. intros H.
  apply bind_inr in H as (ns0 & l0 & Hasm & H).
  apply bind_inr in H as (ns1 & l1 & Hssl & H).
  apply bind_inr in H as ([] & l2 & Hchk & H).
  injection H as <- <-. by exists ns0, l0, l1.
Qed.

(** What a completed run says about the names bound before the SSL phase. *)
Lemma module_body_assembled l ns l' :
  module_body conf l = (inr ns, l') ->
  exists section l0,
    conf_get conf "celery" "BROKER_URL" = inr (broker_url ns) /\
    conf_getsection conf "celery_broker_transport_options" = inr section /\
    broker_transport_options ns =
      default_visibility_timeout (broker_url ns) (or_empty_dict section) /\
    broker_transport_options_for_celery ns = broker_transport_options ns /\
    read_result_backend conf l = (inr (result_backend ns), l0) /\
    DEFAULT_CELERY_CONFIG ns !! "broker_transport_options" =
      Some (VDict (broker_transport_options_for_celery ns)) /\
    DEFAULT_CELERY_CONFIG ns !! "result_backend" = Some (VStr (result_backend ns)).
Proof.
  intros H. apply module_body_inr in H as (ns0 & l0 & l1 & Hasm & Hssl & _).
  apply assemble_default_config_inr in Hasm
    as (section & Hurl & Hsec & Hopts & Hcopy & Hrb & Hcfg1 & Hcfg2 & _).
  apply configure_broker_ssl_inr in Hssl as (Eurl & Eopts & Ecopy & Erb & Ecfg).
  exists section, l0. rewrite Eurl, Eopts, Ecopy, Erb, !Ecfg by done.
  repeat split; assumption.
Qed.

End ModuleBody.

(** ** The result backend (lines 53-57) *)

Section ResultBackend.
Variable conf : AirflowConfigParser.

Lemma read_result_backend_set v l :
  conf_has_option conf "celery" "RESULT_BACKEND" = inr true ->
  conf_get_mandatory_value conf "celery" "RESULT_BACKEND" = inr v ->
  read_result_backend conf l = (inr v, l).
Proof.
  intros Hhas Hv. unfold read_result_backend.
  rewrite (bind_call_inr _ _ _ _ Hhas). unfold call. by rewrite Hv.
Qed.

Lemma read_result_backend_unset v l :
  conf_has_option conf "celery" "RESULT_BACKEND" = inr false ->
  conf_get conf "database" "SQL_ALCHEMY_CONN" = inr v ->
  read_result_backend conf l
  = (inr ("db+" ++ v), (l ++ [LogRecord DEBUG result_backend_debug])%list).
Proof.
  intros Hhas Hv. unfold read_result_backend.
  rewrite (bind_call_inr _ _ _ _ Hhas).
  unfold bind at 1, log_debug.
  by rewrite (bind_call_inr _ _ _ _ Hv).
Qed.

End ResultBackend.

(** ** Completion of the script *)

Section Completion.
Variable conf : AirflowConfigParser.

Lemma check_result_backend_run ns l :
  check_result_backend ns l
  = (inr tt, (l ++ result_backend_records (result_backend ns))%list).
Proof.
  unfold check_result_backend, result_backend_records.
  destruct (Re2.search _ _); [reflexivity |].
  unfold ret. by rewrite app_nil_r.
Qed.

(** Once the first two phases have run, the script completes. *)
Lemma module_body_completes l ns0 l0 ns l1 :
  assemble_default_config conf l = (inr ns0, l0) ->
  configure_broker_ssl conf ns0 l0 = (inr ns, l1) ->
  module_body conf l
  = (inr ns, (l1 ++ result_backend_records (result_backend ns))%list).
Proof.
  intros Hasm Hssl. unfold module_body.
  rewrite (bind_run _ _ _ _ _ Hasm), (bind_run _ _ _ _ _ Hssl).
  by rewrite (bind_run _ _ _ _ _ (check_result_backend_run ns l1)).
Qed.

Lemma module_body_ssl_fails l ns0 l0 e l1 :
  assemble_default_config conf l = (inr ns0, l0) ->
  configure_broker_ssl conf ns0 l0 = (inl e, l1) ->
  module_body conf l = (inl e, l1).
Proof.
  intros Hasm Hssl. unfold module_body.
  rewrite (bind_run _ _ _ _ _ Hasm). by apply bind_fail.
Qed.

End Completion.

(** ** Strings and key sets *)

Lemma search_truthy s :
  Re2.search "rediss?://|sentinel://" s = true -> truthy_str s = true.
Proof. by destruct s. Qed.

Lemma dom_plain_ssl_options key cert cacert :
  dom (plain_ssl_options key cert cacert)
  = ({["keyfile"; "certfile"; "ca_certs"; "cert_reqs"]} : gset string).
Proof.
  unfold plain_ssl_options. rewrite !list_to_map_cons, !dom_insert_L.
  cbn [fst snd list_to_map]. set_solver.
Qed.

Lemma dom_prefixed_ssl_options key cert cacert :
  dom (prefixed_ssl_options key cert cacert)
  = ({["ssl_keyfile"; "ssl_certfile"; "ssl_ca_certs"; "ssl_cert_reqs"]}
       : gset string).
Proof.
  unfold prefixed_ssl_options. rewrite !list_to_map_cons, !dom_insert_L.
  cbn [fst snd list_to_map]. set_solver.
Qed.

Lemma plain_ssl_options_lookup key cert cacert :
  plain_ssl_options key cert cacert !! "keyfile" = Some (VStr key) /\
  plain_ssl_options key cert cacert !! "certfile" = Some (VStr cert) /\
  plain_ssl_options key cert cacert !! "ca_certs" = Some (VStr cacert) /\
  plain_ssl_options key cert cacert !! "cert_reqs" = Some ssl.CERT_REQUIRED.
Proof. unfold plain_ssl_options. cbn [list_to_map fst snd]. by simplify_map_eq. Qed.

Lemma prefixed_ssl_options_lookup key cert cacert :
  prefixed_ssl_options key cert cacert !! "ssl_keyfile" = Some (VStr key) /\
  prefixed_ssl_options key cert cacert !! "ssl_certfile" = Some (VStr cert) /\
  prefixed_ssl_options key cert cacert !! "ssl_ca_certs" = Some (VStr cacert) /\
  prefixed_ssl_options key cert cacert !! "ssl_cert_reqs" = Some ssl.CERT_REQUIRED.
Proof. unfold prefixed_ssl_options. cbn [list_to_map fst snd]. by simplify_map_eq. Qed.

(** ** Completion with SSL active *)

Section SslCompletion.
Variable conf : AirflowConfigParser.

(** With SSL active and a dictionary selected, the script completes with
    that dictionary bound to [broker_use_ssl] and stored in the
    configuration. *)
Lemma module_body_ssl_selected l ns0 l0 m :
  assemble_default_config conf l = (inr ns0, l0) ->
  conf_getboolean conf "celery" "SSL_ACTIVE" = inr true ->
  select_broker_use_ssl conf (broker_url ns0) l0 = (inr m, l0) ->
  exists ns l',
    module_body conf l = (inr ns, l') /\
    celery_ssl_active ns = Some true /\
    broker_use_ssl ns = Some m /\
    DEFAULT_CELERY_CONFIG ns !! "broker_use_ssl" = Some (VDict m).
Proof.
  intros Hasm Hact Hsel.
  pose proof (configure_broker_ssl_active conf ns0 l0 m Hact Hsel) as Hssl.
  eexists _, _. split; [exact (module_body_completes conf l _ _ _ _ Hasm Hssl) |].
  cbn. split; [reflexivity |]. split; [reflexivity |]. apply lookup_insert_eq.
Qed.

End SslCompletion.

(** ** Runs on sample configurations *)

(** A run that succeeded returned [value_of] it with the log [log_of] it. *)
Lemma succeeded_outcome {A : Type} (default : A)
    (run : (exn + A) * list log_record) :
  SampleConf.succeeded run = true ->
  run = (inr (SampleConf.value_of default run), SampleConf.log_of run).
Proof. destruct run as [[e | a] l]; [discriminate | reflexivity]. Qed.

(** Closes a goal between closed terms by evaluation. *)
Ltac evaluate := vm_compute; reflexivity.

(** The phases of the script on a concrete configuration and the empty
    log, once they are known to succeed. *)
Lemma assembled_outcome (conf : AirflowConfigParser) :
  SampleConf.succeeded (assemble_default_config conf []) = true ->
  assemble_default_config conf []
  = (inr (SampleConf.assembled conf), SampleConf.assembled_log conf).
Proof. apply succeeded_outcome. Qed.

Lemma configured_outcome (conf : AirflowConfigParser) :
  SampleConf.succeeded
    (configure_broker_ssl conf (SampleConf.assembled conf)
       (SampleConf.assembled_log conf)) = true ->
  configure_broker_ssl conf (SampleConf.assembled conf)
    (SampleConf.assembled_log conf)
  = (inr (SampleConf.configured conf), SampleConf.configured_log conf).
Proof. apply succeeded_outcome. Qed.

Lemma completed_outcome (conf : AirflowConfigParser) :
  SampleConf.succeeded (module_body conf []) = true ->
  module_body conf []
  = (inr (SampleConf.completed conf), SampleConf.completed_log conf).
Proof. apply succeeded_outcome. Qed.

(** * The claims *)

(** C1. When the broker URL starts with one of [redis://], [rediss://],
    [sqs://], [sentinel://] and the transport options read from the
    configuration have no [visibility_timeout], the options after line 41
    hold [visibility_timeout = 21600]; in every run of the script that
    completes, so do [broker_transport_options], its copy for Celery and
    the dictionary stored in [DEFAULT_CELERY_CONFIG]. *)
Theorem visibility_timeout_default_injected
    (conf : AirflowConfigParser) (url : string)
    (section : option (gmap string pyvalue)) :
  conf_get conf "celery" "BROKER_URL" = inr url ->
  conf_getsection conf "celery_broker_transport_options" = inr section ->
  String.prefix "redis://" url = true \/ String.prefix "rediss://" url = true \/
  String.prefix "sqs://" url = true \/ String.prefix "sentinel://" url = true ->
  or_empty_dict section !! "visibility_timeout" = None ->
  default_visibility_timeout url (or_empty_dict section) !! "visibility_timeout"
    = Some (VInt 21600) /\
  forall l ns l',
    module_body conf l = (inr ns, l') ->
    broker_transport_options ns !! "visibility_timeout" = Some (VInt 21600) /\
    broker_transport_options_for_celery ns !! "visibility_timeout"
      = Some (VInt 21600) /\
    DEFAULT_CELERY_CONFIG ns !! "broker_transport_options"
      = Some (VDict (broker_transport_options_for_celery ns)).
Proof.
  intros Hurl Hsec Hscheme Hnone.
  assert (Hvt : default_visibility_timeout url (or_empty_dict section)
                  !! "visibility_timeout" = Some (VInt 21600)).
  { unfold default_visibility_timeout, dict_contains. rewrite Hnone. cbn [negb].
    replace (_broker_supports_visibility_timeout url) with true.
    - apply lookup_insert_eq.
    - symmetry. unfold _broker_supports_visibility_timeout, startswith.
      cbn [existsb].
      destruct Hscheme as [-> | [-> | [-> | ->]]];
        rewrite ?orb_true_r; reflexivity. }
  split; [exact Hvt |].
  intros l ns l' Hrun.
  apply module_body_assembled in Hrun
    as (section' & l0 & Hurl' & Hsec' & Hopts & Hcopy & _ & Hcfg & _).
  rewrite Hurl in Hurl'. injection Hurl' as Eurl.
  rewrite Hsec in Hsec'. injection Hsec' as Esec. subst section'.
  split; [| split].
  - by rewrite Hopts, <- Eurl.
  - by rewrite Hcopy, Hopts, <- Eurl.
  - exact Hcfg.
Qed.

Lemma visibility_timeout_default_injected_witness :
  module_body SampleConf.redis_conf []
    = (inr (SampleConf.completed SampleConf.redis_conf),
       SampleConf.completed_log SampleConf.redis_conf) /\
  broker_transport_options (SampleConf.completed SampleConf.redis_conf)
    !! "visibility_timeout" = Some (VInt 21600) /\
  broker_transport_options_for_celery (SampleConf.completed SampleConf.redis_conf)
    !! "visibility_timeout" = Some (VInt 21600) /\
  DEFAULT_CELERY_CONFIG (SampleConf.completed SampleConf.redis_conf)
    !! "broker_transport_options"
    = Some (VDict (broker_transport_options_for_celery
                     (SampleConf.completed SampleConf.redis_conf))).
Proof.
  assert (Hok : SampleConf.succeeded (module_body SampleConf.redis_conf []) = true)
    by evaluate.
  assert (Hrun := completed_outcome SampleConf.redis_conf Hok).
  split; [exact Hrun |].
  assert (Hurl : conf_get SampleConf.redis_conf "celery" "BROKER_URL"
                 = inr "redis://broker:6379/0") by evaluate.
  assert (Hscheme : String.prefix "redis://" "redis://broker:6379/0" = true)
    by evaluate.
  assert (Hnone : or_empty_dict
                    (SampleConf.transport_section {["socket_timeout" := VInt 30]}
                       !! "celery_broker_transport_options")
                    !! "visibility_timeout" = None) by evaluate.
  exact (proj2 (visibility_timeout_default_injected SampleConf.redis_conf
                  "redis://broker:6379/0" _ Hurl eq_refl (or_introl Hscheme) Hnone)
           [] _ _ Hrun).
Defined.

(** C2. With SSL active and a broker URL that neither contains [amqp://]
    nor matches [rediss?://|sentinel://], the script fails: the
    [AirflowException] of line 105, which tells the user that the broker
    does not support [SSL_ACTIVE] and to use RabbitMQ or Redis, is caught
    by the [except Exception] clause of line 117 and raised again as an
    [AirflowException] whose message carries that text in parentheses. *)
Theorem ssl_unsupported_broker_rejected
    (conf : AirflowConfigParser) (l : list log_record)
    (ns0 : namespace) (l0 : list log_record) :
  assemble_default_config conf l = (inr ns0, l0) ->
  conf_getboolean conf "celery" "SSL_ACTIVE" = inr true ->
  str_contains "amqp://" (broker_url ns0) = false ->
  Re2.search "rediss?://|sentinel://" (broker_url ns0) = false ->
  module_body conf l
  = (inl (Raise AirflowException
            ("Exception: There was an unknown Celery SSL Error. Please ensure you want to use SSL and/or have all necessary certs and key ("
             ++ "The broker you configured does not support SSL_ACTIVE to be True. Please use RabbitMQ or Redis if you would like to use SSL for broker."
             ++ ").")),
     l0).
Proof.
  intros Hasm Hact Hamqp Hre.
  apply (module_body_ssl_fails conf l ns0 l0 _ _ Hasm).
  unfold configure_broker_ssl.
  rewrite (bind_run _ _ _ _ _ (get_celery_ssl_active_value conf true l0 Hact)).
  unfold try_except. cbn [bind_celery_ssl_active broker_url].
  rewrite (bind_fail _ _ _ _ _
             (select_broker_use_ssl_unsupported conf _ l0 Hamqp Hre)).
  reflexivity.
Qed.

Lemma ssl_unsupported_broker_rejected_witness :
  module_body (SampleConf.ssl_conf "sqs://sqs.eu-west-1.amazonaws.com") []
  = (inl (Raise AirflowException
            "Exception: There was an unknown Celery SSL Error. Please ensure you want to use SSL and/or have all necessary certs and key (The broker you configured does not support SSL_ACTIVE to be True. Please use RabbitMQ or Redis if you would like to use SSL for broker.)."),
     [LogRecord DEBUG result_backend_debug]).
Proof.
  set (conf := SampleConf.ssl_conf "sqs://sqs.eu-west-1.amazonaws.com").
  assert (Hok : SampleConf.succeeded (assemble_default_config conf []) = true)
    by evaluate.
  assert (Hact : conf_getboolean conf "celery" "SSL_ACTIVE" = inr true)
    by evaluate.
  assert (Hamqp : str_contains "amqp://" (broker_url (SampleConf.assembled conf))
                  = false) by evaluate.
  assert (Hre : Re2.search "rediss?://|sentinel://"
                  (broker_url (SampleConf.assembled conf)) = false) by evaluate.
  pose proof (ssl_unsupported_broker_rejected conf [] _ _
                (assembled_outcome conf Hok) Hact Hamqp Hre) as H.
  vm_compute in H. vm_compute. exact H.
Defined.

(** C3. With SSL active and a non-empty broker URL that contains
    [amqp://], the script completes and [broker_use_ssl], also stored in
    [DEFAULT_CELERY_CONFIG], has exactly the keys [keyfile], [certfile],
    [ca_certs], [cert_reqs]: the values of [celery.SSL_KEY],
    [celery.SSL_CERT], [celery.SSL_CACERT] and [ssl.CERT_REQUIRED]. *)
Theorem amqp_broker_use_ssl
    (conf : AirflowConfigParser) (l : list log_record)
    (ns0 : namespace) (l0 : list log_record) (key cert cacert : string) :
  assemble_default_config conf l = (inr ns0, l0) ->
  conf_getboolean conf "celery" "SSL_ACTIVE" = inr true ->
  broker_url ns0 <> EmptyString ->
  str_contains "amqp://" (broker_url ns0) = true ->
  conf_get conf "celery" "SSL_KEY" = inr key ->
  conf_get conf "celery" "SSL_CERT" = inr cert ->
  conf_get conf "celery" "SSL_CACERT" = inr cacert ->
  exists m ns l',
    module_body conf l = (inr ns, l') /\
    broker_use_ssl ns = Some m /\
    DEFAULT_CELERY_CONFIG ns !! "broker_use_ssl" = Some (VDict m) /\
    dom m = ({["keyfile"; "certfile"; "ca_certs"; "cert_reqs"]} : gset string) /\
    m !! "keyfile" = Some (VStr key) /\
    m !! "certfile" = Some (VStr cert) /\
    m !! "ca_certs" = Some (VStr cacert) /\
    m !! "cert_reqs" = Some ssl.CERT_REQUIRED.
Proof.
  intros Hasm Hact Hne Hamqp Hk Hc Hca.
  assert (Htruthy : truthy_str (broker_url ns0) = true)
    by (by destruct (broker_url ns0)).
  destruct (module_body_ssl_selected conf l ns0 l0 _ Hasm Hact
              (select_broker_use_ssl_amqp conf _ key cert cacert l0
                 Htruthy Hamqp Hk Hc Hca))
    as (ns & l' & Hrun & _ & Hbound & Hstored).
  exists (plain_ssl_options key cert cacert), ns, l'.
  split; [exact Hrun |]. split; [exact Hbound |]. split; [exact Hstored |].
  split; [apply dom_plain_ssl_options | apply plain_ssl_options_lookup].
Qed.

Lemma amqp_broker_use_ssl_witness :
  exists m ns l',
    module_body (SampleConf.ssl_conf "amqp://guest@rabbit:5672//") []
      = (inr ns, l') /\
    broker_use_ssl ns = Some m /\
    DEFAULT_CELERY_CONFIG ns !! "broker_use_ssl" = Some (VDict m) /\
    dom m = ({["keyfile"; "certfile"; "ca_certs"; "cert_reqs"]} : gset string) /\
    m !! "keyfile" = Some (VStr "/etc/ssl/key.pem") /\
    m !! "certfile" = Some (VStr "/etc/ssl/cert.pem") /\
    m !! "ca_certs" = Some (VStr "/etc/ssl/ca.pem") /\
    m !! "cert_reqs" = Some ssl.CERT_REQUIRED.
Proof.
  set (conf := SampleConf.ssl_conf "amqp://guest@rabbit:5672//").
  assert (Hok : SampleConf.succeeded (assemble_default_config conf []) = true)
    by evaluate.
  assert (Hact : conf_getboolean conf "celery" "SSL_ACTIVE" = inr true)
    by evaluate.
  assert (Hne : broker_url (SampleConf.assembled conf) <> EmptyString)
    by (vm_compute; discriminate).
  assert (Hamqp : str_contains "amqp://" (broker_url (SampleConf.assembled conf))
                  = true) by evaluate.
  assert (Hk : conf_get conf "celery" "SSL_KEY" = inr "/etc/ssl/key.pem")
    by evaluate.
  assert (Hc : conf_get conf "celery" "SSL_CERT" = inr "/etc/ssl/cert.pem")
    by evaluate.
  assert (Hca : conf_get conf "celery" "SSL_CACERT" = inr "/etc/ssl/ca.pem")
    by evaluate.
  exact (amqp_broker_use_ssl conf [] _ _ _ _ _
           (assembled_outcome conf Hok) Hact Hne Hamqp Hk Hc Hca).
Defined.

(** C4. With SSL active and a broker URL that does not contain [amqp://]
    and matches [rediss?://|sentinel://] somewhere, the script completes
    and [broker_use_ssl], also stored in [DEFAULT_CELERY_CONFIG], has
    exactly the keys [ssl_keyfile], [ssl_certfile], [ssl_ca_certs],
    [ssl_cert_reqs]: the values of [celery.SSL_KEY], [celery.SSL_CERT],
    [celery.SSL_CACERT] and [ssl.CERT_REQUIRED]. *)
Theorem redis_broker_use_ssl
    (conf : AirflowConfigParser) (l : list log_record)
    (ns0 : namespace) (l0 : list log_record) (key cert cacert : string) :
  assemble_default_config conf l = (inr ns0, l0) ->
  conf_getboolean conf "celery" "SSL_ACTIVE" = inr true ->
  str_contains "amqp://" (broker_url ns0) = false ->
  Re2.search "rediss?://|sentinel://" (broker_url ns0) = true ->
  conf_get conf "celery" "SSL_KEY" = inr key ->
  conf_get conf "celery" "SSL_CERT" = inr cert ->
  conf_get conf "celery" "SSL_CACERT" = inr cacert ->
  exists m ns l',
    module_body conf l = (inr ns, l') /\
    broker_use_ssl ns = Some m /\
    DEFAULT_CELERY_CONFIG ns !! "broker_use_ssl" = Some (VDict m) /\
    dom m = ({["ssl_keyfile"; "ssl_certfile"; "ssl_ca_certs"; "ssl_cert_reqs"]}
               : gset string) /\
    m !! "ssl_keyfile" = Some (VStr key) /\
    m !! "ssl_certfile" = Some (VStr cert) /\
    m !! "ssl_ca_certs" = Some (VStr cacert) /\
    m !! "ssl_cert_reqs" = Some ssl.CERT_REQUIRED.
Proof.
  intros Hasm Hact Hamqp Hre Hk Hc Hca.
  destruct (module_body_ssl_selected conf l ns0 l0 _ Hasm Hact
              (select_broker_use_ssl_redis conf _ key cert cacert l0
                 Hamqp (search_truthy _ Hre) Hre Hk Hc Hca))
    as (ns & l' & Hrun & _ & Hbound & Hstored).
  exists (prefixed_ssl_options key cert cacert), ns, l'.
  split; [exact Hrun |]. split; [exact Hbound |]. split; [exact Hstored |].
  split; [apply dom_prefixed_ssl_options | apply prefixed_ssl_options_lookup].
Qed.

Lemma redis_broker_use_ssl_witness :
  exists m ns l',
    module_body (SampleConf.ssl_conf "rediss://broker:6380/0") []
      = (inr ns, l') /\
    broker_use_ssl ns = Some m /\
    DEFAULT_CELERY_CONFIG ns !! "broker_use_ssl" = Some (VDict m) /\
    dom m = ({["ssl_keyfile"; "ssl_certfile"; "ssl_ca_certs"; "ssl_cert_reqs"]}
               : gset string) /\
    m !! "ssl_keyfile" = Some (VStr "/etc/ssl/key.pem") /\
    m !! "ssl_certfile" = Some (VStr "/etc/ssl/cert.pem") /\
    m !! "ssl_ca_certs" = Some (VStr "/etc/ssl/ca.pem") /\
    m !! "ssl_cert_reqs" = Some ssl.CERT_REQUIRED.
Proof.
  set (conf := SampleConf.ssl_conf "rediss://broker:6380/0").
  assert (Hok : SampleConf.succeeded (assemble_default_config conf []) = true)
    by evaluate.
  assert (Hact : conf_getboolean conf "celery" "SSL_ACTIVE" = inr true)
    by evaluate.
  assert (Hamqp : str_contains "amqp://" (broker_url (SampleConf.assembled conf))
                  = false) by evaluate.
  assert (Hre : Re2.search "rediss?://|sentinel://"
                  (broker_url (SampleConf.assembled conf)) = true) by evaluate.
  assert (Hk : conf_get conf "celery" "SSL_KEY" = inr "/etc/ssl/key.pem")
    by evaluate.
  assert (Hc : conf_get conf "celery" "SSL_CERT" = inr "/etc/ssl/cert.pem")
    by evaluate.
  assert (Hca : conf_get conf "celery" "SSL_CACERT" = inr "/etc/ssl/ca.pem")
    by evaluate.
  exact (redis_broker_use_ssl conf [] _ _ _ _ _
           (assembled_outcome conf Hok) Hact Hamqp Hre Hk Hc Hca).
Defined.

(** C5. When [conf.getboolean("celery", "SSL_ACTIVE")] raises an
    [AirflowConfigException], [_get_celery_ssl_active] logs the warning and
    returns [False], and the script goes on to its end with SSL inactive;
    an exception of any other class leaves [_get_celery_ssl_active] and
    the script as it was raised. *)
Theorem ssl_active_read_failure
    (conf : AirflowConfigParser) (e : exn) (l : list log_record)
    (ns0 : namespace) (l0 : list log_record) :
  conf_getboolean conf "celery" "SSL_ACTIVE" = inl e ->
  assemble_default_config conf l = (inr ns0, l0) ->
  if isinstance e AirflowConfigException then
    (forall l1,
       _get_celery_ssl_active conf l1 = (inr false, (l1 ++ [ssl_warning])%list)) /\
    module_body conf l
    = (inr (bind_celery_ssl_active false ns0),
       ((l0 ++ [ssl_warning]) ++ result_backend_records (result_backend ns0))%list)
  else
    (forall l1, _get_celery_ssl_active conf l1 = (inl e, l1)) /\
    module_body conf l = (inl e, l0).
Proof.
  intros Hread Hasm. destruct (isinstance e AirflowConfigException) eqn:He.
  - pose proof (fun l1 => get_celery_ssl_active_swallowed conf e l1 Hread He)
      as Hprobe.
    split; [exact Hprobe |].
    rewrite (module_body_completes conf l ns0 l0 _ _ Hasm
               (configure_broker_ssl_inactive conf ns0 l0 _ (Hprobe l0))).
    reflexivity.
  - pose proof (fun l1 => get_celery_ssl_active_propagated conf e l1 Hread He)
      as Hprobe.
    split; [exact Hprobe |].
    apply (module_body_ssl_fails conf l ns0 l0 _ _ Hasm).
    unfold configure_broker_ssl. by apply bind_fail.
Qed.

Lemma ssl_active_read_failure_witness :
  (_get_celery_ssl_active SampleConf.redis_conf [] = (inr false, [ssl_warning]) /\
   module_body SampleConf.redis_conf []
   = (inr (bind_celery_ssl_active false (SampleConf.assembled SampleConf.redis_conf)),
      ((SampleConf.assembled_log SampleConf.redis_conf ++ [ssl_warning])
       ++ result_backend_records
            (result_backend (SampleConf.assembled SampleConf.redis_conf)))%list)) /\
  (_get_celery_ssl_active
     (SampleConf.failing_ssl_active (Raise KeyError "SSL_ACTIVE")
        SampleConf.redis_conf) []
   = (inl (Raise KeyError "SSL_ACTIVE"), []) /\
   module_body
     (SampleConf.failing_ssl_active (Raise KeyError "SSL_ACTIVE")
        SampleConf.redis_conf) []
   = (inl (Raise KeyError "SSL_ACTIVE"),
      SampleConf.assembled_log
        (SampleConf.failing_ssl_active (Raise KeyError "SSL_ACTIVE")
           SampleConf.redis_conf))).
Proof.
  split.
  - assert (Hread : conf_getboolean SampleConf.redis_conf "celery" "SSL_ACTIVE"
                    = inl (SampleConf.not_found "celery" "SSL_ACTIVE"))
      by evaluate.
    assert (Hok : SampleConf.succeeded
                    (assemble_default_config SampleConf.redis_conf []) = true)
      by evaluate.
    pose proof (ssl_active_read_failure SampleConf.redis_conf _ [] _ _ Hread
                  (assembled_outcome SampleConf.redis_conf Hok)) as H.
    cbn [isinstance issubclass exn_cls SampleConf.not_found ancestors base_class
           existsb exn_class_eqb orb] in H.
    exact (conj (proj1 H []) (proj2 H)).
  - set (conf := SampleConf.failing_ssl_active (Raise KeyError "SSL_ACTIVE")
                   SampleConf.redis_conf).
    assert (Hread : conf_getboolean conf "celery" "SSL_ACTIVE"
                    = inl (Raise KeyError "SSL_ACTIVE")) by evaluate.
    assert (Hok : SampleConf.succeeded (assemble_default_config conf []) = true)
      by evaluate.
    pose proof (ssl_active_read_failure conf _ [] _ _ Hread
                  (assembled_outcome conf Hok)) as H.
    cbn [isinstance issubclass exn_cls ancestors base_class existsb
           exn_class_eqb orb] in H.
    exact (conj (proj1 H []) (proj2 H)).
Defined.

(** C6. When [celery.RESULT_BACKEND] is not set, [result_backend] is
    ["db+"] followed by the value of [database.SQL_ALCHEMY_CONN]; when it
    is set, [result_backend] is the value [conf.get_mandatory_value]
    returns.  Either way this is the [result_backend] of every run that
    completes, and the entry of [DEFAULT_CELERY_CONFIG]. *)
Theorem result_backend_resolved
    (conf : AirflowConfigParser) (has_option : bool) (v : string) :
  conf_has_option conf "celery" "RESULT_BACKEND" = inr has_option ->
  (if has_option then conf_get_mandatory_value conf "celery" "RESULT_BACKEND"
   else conf_get conf "database" "SQL_ALCHEMY_CONN") = inr v ->
  (forall l,
     read_result_backend conf l
     = (inr (if has_option then v else "db+" ++ v),
        if has_option then l
        else (l ++ [LogRecord DEBUG result_backend_debug])%list)) /\
  forall l ns l',
    module_body conf l = (inr ns, l') ->
    result_backend ns = (if has_option then v else "db+" ++ v) /\
    DEFAULT_CELERY_CONFIG ns !! "result_backend" = Some (VStr (result_backend ns)).
Proof.
  intros Hhas Hv.
  assert (Hread : forall l,
            read_result_backend conf l
            = (inr (if has_option then v else "db+" ++ v),
               if has_option then l
               else (l ++ [LogRecord DEBUG result_backend_debug])%list)).
  { intros l. destruct has_option.
    - by apply read_result_backend_set.
    - by apply read_result_backend_unset. }
  split; [exact Hread |].
  intros l ns l' Hrun.
  apply module_body_assembled in Hrun
    as (section & l0 & _ & _ & _ & _ & Hrb & _ & Hcfg).
  split; [| exact Hcfg].
  rewrite Hread in Hrb. by injection Hrb as <- _.
Qed.

Lemma result_backend_resolved_witness :
  (read_result_backend SampleConf.redis_conf []
   = (inr "db+postgresql://airflow@db/airflow",
      [LogRecord DEBUG result_backend_debug]) /\
   result_backend (SampleConf.completed SampleConf.redis_conf)
   = "db+postgresql://airflow@db/airflow") /\
  (read_result_backend
     (SampleConf.result_backend_conf "db+mysql://airflow@db/airflow") []
   = (inr "db+mysql://airflow@db/airflow", []) /\
   result_backend
     (SampleConf.completed
        (SampleConf.result_backend_conf "db+mysql://airflow@db/airflow"))
   = "db+mysql://airflow@db/airflow").
Proof.
  split.
  - assert (Hhas : conf_has_option SampleConf.redis_conf "celery" "RESULT_BACKEND"
                   = inr false) by evaluate.
    assert (Hv : conf_get SampleConf.redis_conf "database" "SQL_ALCHEMY_CONN"
                 = inr "postgresql://airflow@db/airflow") by evaluate.
    assert (Hok : SampleConf.succeeded (module_body SampleConf.redis_conf []) = true)
      by evaluate.
    destruct (result_backend_resolved SampleConf.redis_conf false _ Hhas Hv)
      as [Hread Hdone].
    split; [exact (Hread []) |].
    exact (proj1 (Hdone [] _ _ (completed_outcome SampleConf.redis_conf Hok))).
  - set (conf := SampleConf.result_backend_conf "db+mysql://airflow@db/airflow").
    assert (Hhas : conf_has_option conf "celery" "RESULT_BACKEND" = inr true)
      by evaluate.
    assert (Hv : conf_get_mandatory_value conf "celery" "RESULT_BACKEND"
                 = inr "db+mysql://airflow@db/airflow") by evaluate.
    assert (Hok : SampleConf.succeeded (module_body conf []) = true) by evaluate.
    destruct (result_backend_resolved conf true _ Hhas Hv) as [Hread Hdone].
    split; [exact (Hread []) |].
    exact (proj1 (Hdone [] _ _ (completed_outcome conf Hok))).
Defined.

(** C7. When the transport options hold the key [sentinel_kwargs]: a
    value that is not a dictionary makes the script fail with the
    [AirflowException] "sentinel_kwargs should be written in the correct
    dictionary format."; a dictionary passes the check, and the copy for
    Celery holds it unchanged under the same key. *)
Theorem sentinel_kwargs_validated
    (conf : AirflowConfigParser) (url : string)
    (section : option (gmap string pyvalue)) (v : pyvalue) :
  conf_get conf "celery" "BROKER_URL" = inr url ->
  conf_getsection conf "celery_broker_transport_options" = inr section ->
  or_empty_dict section !! "sentinel_kwargs" = Some v ->
  match v with
  | VDict _ =>
      (forall l,
         copy_for_celery (default_visibility_timeout url (or_empty_dict section)) l
         = (inr (default_visibility_timeout url (or_empty_dict section)), l)) /\
      default_visibility_timeout url (or_empty_dict section) !! "sentinel_kwargs"
        = Some v /\
      forall l ns l',
        module_body conf l = (inr ns, l') ->
        broker_transport_options_for_celery ns !! "sentinel_kwargs" = Some v /\
        DEFAULT_CELERY_CONFIG ns !! "broker_transport_options"
          = Some (VDict (broker_transport_options_for_celery ns))
  | _ =>
      forall l, module_body conf l = (inl sentinel_kwargs_error, l)
  end.
Proof.
  intros Hurl Hsec Hv.
  assert (Hkey : default_visibility_timeout url (or_empty_dict section)
                   !! "sentinel_kwargs" = Some v).
  { by rewrite default_visibility_timeout_other. }
  assert (Hfail : isinstance_dict v = false ->
                  forall l, module_body conf l = (inl sentinel_kwargs_error, l)).
  { intros Hnd l. unfold module_body, assemble_default_config.
    apply bind_fail.
    rewrite (bind_call_inr _ _ _ _ Hurl), (bind_call_inr _ _ _ _ Hsec).
    apply bind_fail. by apply copy_for_celery_not_dict with v. }
  destruct v; try (apply Hfail; reflexivity).
  split; [| split].
  - intros l. by apply copy_for_celery_dict with d.
  - exact Hkey.
  - intros l ns l' Hrun.
    apply module_body_assembled in Hrun
      as (section' & l0 & Hurl' & Hsec' & Hopts & Hcopy & _ & Hcfg & _).
    rewrite Hurl in Hurl'. injection Hurl' as Eurl.
    rewrite Hsec in Hsec'. injection Hsec' as <-.
    split; [| exact Hcfg].
    by rewrite Hcopy, Hopts, <- Eurl.
Qed.

Lemma sentinel_kwargs_validated_witness :
  module_body SampleConf.sentinel_text_conf [] = (inl sentinel_kwargs_error, []) /\
  module_body SampleConf.sentinel_dict_conf []
    = (inr (SampleConf.completed SampleConf.sentinel_dict_conf),
       SampleConf.completed_log SampleConf.sentinel_dict_conf) /\
  broker_transport_options_for_celery
    (SampleConf.completed SampleConf.sentinel_dict_conf) !! "sentinel_kwargs"
    = Some (VDict {["password" := VStr "secret"]}).
Proof.
  assert (Hurl : forall sections,
            conf_get (SampleConf.table_conf
                        (SampleConf.base_options "sentinel://sentinel-1:26379")
                        sections) "celery" "BROKER_URL"
            = inr "sentinel://sentinel-1:26379") by (intros; evaluate).
  split; [| split].
  - assert (Hv : or_empty_dict
                   (SampleConf.transport_section
                      {["sentinel_kwargs" := VStr "{password: secret}"]}
                      !! "celery_broker_transport_options")
                   !! "sentinel_kwargs" = Some (VStr "{password: secret}"))
      by evaluate.
    exact (sentinel_kwargs_validated SampleConf.sentinel_text_conf _ _ _
             (Hurl _) eq_refl Hv []).
  - apply completed_outcome. evaluate.
  - assert (Hv : or_empty_dict
                   (SampleConf.transport_section
                      {["sentinel_kwargs" := VDict {["password" := VStr "secret"]}]}
                      !! "celery_broker_transport_options")
                   !! "sentinel_kwargs"
                 = Some (VDict {["password" := VStr "secret"]}))
      by reflexivity.
    assert (Hok : SampleConf.succeeded
                    (module_body SampleConf.sentinel_dict_conf []) = true)
      by evaluate.
    exact (proj1 (proj2 (proj2 (sentinel_kwargs_validated
                                  SampleConf.sentinel_dict_conf _ _ _
                                  (Hurl _) eq_refl Hv))
                    [] _ _ (completed_outcome _ Hok))).
Defined.

(** C8. When the transport options already hold [visibility_timeout],
    lines 39-41 leave the whole dictionary as it is, whatever the broker
    URL, and every run that completes has the user's value in
    [broker_transport_options] and in the copy for Celery. *)
Theorem visibility_timeout_preserved
    (conf : AirflowConfigParser) (url : string)
    (section : option (gmap string pyvalue)) (v : pyvalue) :
  conf_get conf "celery" "BROKER_URL" = inr url ->
  conf_getsection conf "celery_broker_transport_options" = inr section ->
  or_empty_dict section !! "visibility_timeout" = Some v ->
  default_visibility_timeout url (or_empty_dict section) = or_empty_dict section /\
  forall l ns l',
    module_body conf l = (inr ns, l') ->
    broker_transport_options ns !! "visibility_timeout" = Some v /\
    broker_transport_options_for_celery ns !! "visibility_timeout" = Some v /\
    DEFAULT_CELERY_CONFIG ns !! "broker_transport_options"
      = Some (VDict (broker_transport_options_for_celery ns)).
Proof.
  intros Hurl Hsec Hv.
  assert (Hsame : forall u, default_visibility_timeout u (or_empty_dict section)
                            = or_empty_dict section).
  { intros u. unfold default_visibility_timeout, dict_contains. by rewrite Hv. }
  split; [apply Hsame |].
  intros l ns l' Hrun.
  apply module_body_assembled in Hrun
    as (section' & l0 & _ & Hsec' & Hopts & Hcopy & _ & Hcfg & _).
  rewrite Hsec in Hsec'. injection Hsec' as <-.
  rewrite Hsame in Hopts.
  split; [| split].
  - by rewrite Hopts.
  - by rewrite Hcopy, Hopts.
  - exact Hcfg.
Qed.

Lemma visibility_timeout_preserved_witness :
  module_body SampleConf.redis_timeout_conf []
    = (inr (SampleConf.completed SampleConf.redis_timeout_conf),
       SampleConf.completed_log SampleConf.redis_timeout_conf) /\
  broker_transport_options (SampleConf.completed SampleConf.redis_timeout_conf)
    !! "visibility_timeout" = Some (VInt 3600) /\
  broker_transport_options_for_celery
    (SampleConf.completed SampleConf.redis_timeout_conf)
    !! "visibility_timeout" = Some (VInt 3600) /\
  DEFAULT_CELERY_CONFIG (SampleConf.completed SampleConf.redis_timeout_conf)
    !! "broker_transport_options"
    = Some (VDict (broker_transport_options_for_celery
                     (SampleConf.completed SampleConf.redis_timeout_conf))).
Proof.
  assert (Hok : SampleConf.succeeded
                  (module_body SampleConf.redis_timeout_conf []) = true)
    by evaluate.
  assert (Hrun := completed_outcome SampleConf.redis_timeout_conf Hok).
  split; [exact Hrun |].
  assert (Hurl : conf_get SampleConf.redis_timeout_conf "celery" "BROKER_URL"
                 = inr "redis://broker:6379/0") by evaluate.
  assert (Hv : or_empty_dict
                 (SampleConf.transport_section {["visibility_timeout" := VInt 3600]}
                    !! "celery_broker_transport_options")
                 !! "visibility_timeout" = Some (VInt 3600)) by evaluate.
  exact (proj2 (visibility_timeout_preserved SampleConf.redis_timeout_conf
                  "redis://broker:6379/0" _ _ Hurl eq_refl Hv)
           [] _ _ Hrun).
Defined.

(** C9. When [result_backend] matches [rediss?://|amqp://|rpc://]
    somewhere, the last statement logs the warning that recommends a
    database and raises nothing: the script completes with the namespace
    the SSL phase left, unchanged. *)
Theorem result_backend_warning_not_fatal
    (conf : AirflowConfigParser) (l : list log_record)
    (ns0 : namespace) (l0 : list log_record)
    (ns : namespace) (l1 : list log_record) :
  assemble_default_config conf l = (inr ns0, l0) ->
  configure_broker_ssl conf ns0 l0 = (inr ns, l1) ->
  Re2.search "rediss?://|amqp://|rpc://" (result_backend ns) = true ->
  check_result_backend ns l1
  = (inr tt,
     (l1 ++ [LogRecord WARNING
               ("You have configured a result_backend of " ++ result_backend ns
                ++ ", it is highly recommended to use an alternative result_backend (i.e. a database).")])%list) /\
  module_body conf l
  = (inr ns,
     (l1 ++ [LogRecord WARNING
               ("You have configured a result_backend of " ++ result_backend ns
                ++ ", it is highly recommended to use an alternative result_backend (i.e. a database).")])%list).
Proof.
  intros Hasm Hssl Hre.
  rewrite (module_body_completes conf l ns0 l0 ns l1 Hasm Hssl).
  rewrite check_result_backend_run.
  unfold result_backend_records. rewrite Hre. split; reflexivity.
Qed.

Lemma result_backend_warning_not_fatal_witness :
  module_body (SampleConf.result_backend_conf "amqp://guest@rabbit:5672//") []
    = (inr (SampleConf.configured
              (SampleConf.result_backend_conf "amqp://guest@rabbit:5672//")),
       SampleConf.completed_log
         (SampleConf.result_backend_conf "amqp://guest@rabbit:5672//")) /\
  SampleConf.completed_log
    (SampleConf.result_backend_conf "amqp://guest@rabbit:5672//")
  = [LogRecord WARNING "Celery Executor will run without SSL";
     LogRecord WARNING
       "You have configured a result_backend of amqp://guest@rabbit:5672//, it is highly recommended to use an alternative result_backend (i.e. a database)."].
Proof.
  set (conf := SampleConf.result_backend_conf "amqp://guest@rabbit:5672//").
  assert (Hok : SampleConf.succeeded (assemble_default_config conf []) = true)
    by evaluate.
  assert (Hssl : SampleConf.succeeded
                   (configure_broker_ssl conf (SampleConf.assembled conf)
                      (SampleConf.assembled_log conf)) = true) by evaluate.
  assert (Hre : Re2.search "rediss?://|amqp://|rpc://"
                  (result_backend (SampleConf.configured conf)) = true)
    by evaluate.
  pose proof (proj2 (result_backend_warning_not_fatal conf [] _ _ _ _
                       (assembled_outcome conf Hok) (configured_outcome conf Hssl)
                       Hre)) as Hrun.
  assert (Hlog : SampleConf.completed_log conf
                 = [LogRecord WARNING "Celery Executor will run without SSL";
                    LogRecord WARNING
                      "You have configured a result_backend of amqp://guest@rabbit:5672//, it is highly recommended to use an alternative result_backend (i.e. a database)."])
    by evaluate.
  split; [| exact Hlog].
  rewrite Hrun. unfold SampleConf.completed_log, SampleConf.log_of.
  rewrite Hrun. reflexivity.
Defined.

(** C10. The [amqp://] test comes first: with SSL active and a non-empty
    broker URL containing [amqp://], whether or not the URL also matches
    [rediss?://|sentinel://], the AMQP branch is taken and [broker_use_ssl]
    has the plain keys [keyfile], [certfile], [ca_certs], [cert_reqs], not
    the dictionary of the Redis branch. *)
Theorem amqp_test_precedes_redis_test
    (conf : AirflowConfigParser) (l : list log_record)
    (ns0 : namespace) (l0 : list log_record) (key cert cacert : string) :
  assemble_default_config conf l = (inr ns0, l0) ->
  conf_getboolean conf "celery" "SSL_ACTIVE" = inr true ->
  broker_url ns0 <> EmptyString ->
  str_contains "amqp://" (broker_url ns0) = true ->
  conf_get conf "celery" "SSL_KEY" = inr key ->
  conf_get conf "celery" "SSL_CERT" = inr cert ->
  conf_get conf "celery" "SSL_CACERT" = inr cacert ->
  select_broker_use_ssl conf (broker_url ns0) l0
  = (inr (plain_ssl_options key cert cacert), l0) /\
  exists m ns l',
    module_body conf l = (inr ns, l') /\
    broker_use_ssl ns = Some m /\
    DEFAULT_CELERY_CONFIG ns !! "broker_use_ssl" = Some (VDict m) /\
    dom m = ({["keyfile"; "certfile"; "ca_certs"; "cert_reqs"]} : gset string) /\
    m <> prefixed_ssl_options key cert cacert.
Proof.
  intros Hasm Hact Hne Hamqp Hk Hc Hca.
  assert (Htruthy : truthy_str (broker_url ns0) = true)
    by (by destruct (broker_url ns0)).
  pose proof (select_broker_use_ssl_amqp conf _ key cert cacert l0
                Htruthy Hamqp Hk Hc Hca) as Hsel.
  split; [exact Hsel |].
  destruct (module_body_ssl_selected conf l ns0 l0 _ Hasm Hact Hsel)
    as (ns & l' & Hrun & _ & Hbound & Hstored).
  exists (plain_ssl_options key cert cacert), ns, l'.
  split; [exact Hrun |]. split; [exact Hbound |]. split; [exact Hstored |].
  split; [apply dom_plain_ssl_options |].
  intros Heq. apply (f_equal (fun d => d !! "keyfile")) in Heq.
  rewrite (proj1 (plain_ssl_options_lookup key cert cacert)) in Heq.
  unfold prefixed_ssl_options in Heq. cbn [list_to_map fst snd] in Heq.
  by simplify_map_eq.
Qed.

Lemma amqp_test_precedes_redis_test_witness :
  Re2.search "rediss?://|sentinel://" "rediss://broker:6380/0?failover=amqp://rabbit"
    = true /\
  exists m ns l',
    module_body (SampleConf.ssl_conf "rediss://broker:6380/0?failover=amqp://rabbit") []
      = (inr ns, l') /\
    broker_use_ssl ns = Some m /\
    DEFAULT_CELERY_CONFIG ns !! "broker_use_ssl" = Some (VDict m) /\
    dom m = ({["keyfile"; "certfile"; "ca_certs"; "cert_reqs"]} : gset string) /\
    m <> prefixed_ssl_options "/etc/ssl/key.pem" "/etc/ssl/cert.pem" "/etc/ssl/ca.pem".
Proof.
  set (conf := SampleConf.ssl_conf "rediss://broker:6380/0?failover=amqp://rabbit").
  split; [evaluate |].
  assert (Hok : SampleConf.succeeded (assemble_default_config conf []) = true)
    by evaluate.
  assert (Hact : conf_getboolean conf "celery" "SSL_ACTIVE" = inr true)
    by evaluate.
  assert (Hne : broker_url (SampleConf.assembled conf) <> EmptyString)
    by (vm_compute; discriminate).
  assert (Hamqp : str_contains "amqp://" (broker_url (SampleConf.assembled conf))
                  = true) by evaluate.
  assert (Hk : conf_get conf "celery" "SSL_KEY" = inr "/etc/ssl/key.pem")
    by evaluate.
  assert (Hc : conf_get conf "celery" "SSL_CERT" = inr "/etc/ssl/cert.pem")
    by evaluate.
  assert (Hca : conf_get conf "celery" "SSL_CACERT" = inr "/etc/ssl/ca.pem")
    by evaluate.
  exact (proj2 (amqp_test_precedes_redis_test conf [] _ _ _ _ _
                  (assembled_outcome conf Hok) Hact Hne Hamqp Hk Hc Hca)).
Defined.

(** * Further properties *)

(** ** Outcomes of the SSL phase *)

Section SslOutcomes.
Import Scenarios.
Variable conf : AirflowConfigParser.

Lemma get_celery_ssl_active_inr l b l' :
  _get_celery_ssl_active conf l = (inr b, l') ->
  l' = (l ++ ssl_probe_records conf)%list /\
  match conf_getboolean conf "celery" "SSL_ACTIVE" with
  | inr b' => b = b'
  | inl e => b = false /\ isinstance e AirflowConfigException = true
  end.
Proof.
  unfold _get_celery_ssl_active, try_except, call, ssl_probe_records.
  destruct (conf_getboolean conf "celery" "SSL_ACTIVE") as [e | b'].
  - cbn [select_clause]. destruct (isinstance e AirflowConfigException);
      [| discriminate].
    intros [= <- <-]. done.
  - intros [= <- <-]. by rewrite app_nil_r.
Qed.

Lemma get_celery_ssl_active_inl l e l' :
  _get_celery_ssl_active conf l = (inl e, l') ->
  isinstance e AirflowConfigException = false.
Proof.
  unfold _get_celery_ssl_active, try_except, call.
  destruct (conf_getboolean conf "celery" "SSL_ACTIVE") as [e0 | b'];
    [| discriminate].
  cbn [select_clause].
  destruct (isinstance e0 AirflowConfigException) eqn:He0; [discriminate |].
  by intros [= <- _].
Qed.

Lemma select_broker_use_ssl_inr url l m l' :
  select_broker_use_ssl conf url l = (inr m, l') ->
  l' = l /\
  (str_contains "amqp://" url = true \/
   Re2.search "rediss?://|sentinel://" url = true) /\
  exists key cert cacert,
    conf_get conf "celery" "SSL_KEY" = inr key /\
    conf_get conf "celery" "SSL_CERT" = inr cert /\
    conf_get conf "celery" "SSL_CACERT" = inr cacert /\
    m = if str_contains "amqp://" url then plain_ssl_options key cert cacert
        else prefixed_ssl_options key cert cacert.
Proof.
  unfold select_broker_use_ssl, bind, call, ret.
  destruct (truthy_str url); cbn [andb]; [| discriminate].
  destruct (str_contains "amqp://" url);
    [| destruct (Re2.search _ url); [| discriminate]];
    (destruct (conf_get conf "celery" "SSL_KEY") as [? | key]; [discriminate |]);
    (destruct (conf_get conf "celery" "SSL_CERT") as [? | cert]; [discriminate |]);
    (destruct (conf_get conf "celery" "SSL_CACERT") as [? | cacert];
       [discriminate |]);
    intros [= <- <-]; (split; [reflexivity |]); (split; [by auto |]);
    by exists key, cert, cacert.
Qed.

(** What the handlers of lines 111-121 let through is never an
    [AirflowConfigException]. *)
Lemma configure_broker_ssl_inl ns l e l' :
  configure_broker_ssl conf ns l = (inl e, l') ->
  isinstance e AirflowConfigException = false.
Proof.
  unfold configure_broker_ssl, bind at 1.
  destruct (_get_celery_ssl_active conf l) as [[e0 | active] l1] eqn:Hprobe.
  - intros [= <- _]. by apply get_celery_ssl_active_inl in Hprobe.
  - unfold try_except.
    destruct active; [| discriminate].
    unfold bind.
    destruct (select_broker_use_ssl _ _ _) as [[e0 | m] l2]; [| discriminate].
    cbn [select_clause].
    destruct (isinstance e0 AirflowConfigException) eqn:He0.
    + by intros [= <- _].
    + destruct (isinstance e0 Exception); intros [= <- _]; [reflexivity | exact He0].
Qed.

Lemma configure_broker_ssl_outcome ns l ns' l' :
  configure_broker_ssl conf ns l = (inr ns', l') ->
  l' = (l ++ ssl_probe_records conf)%list /\
  exists active,
    match conf_getboolean conf "celery" "SSL_ACTIVE" with
    | inr b => active = b
    | inl e => active = false /\ isinstance e AirflowConfigException = true
    end /\
    if active : bool then
      (str_contains "amqp://" (broker_url ns) = true \/
       Re2.search "rediss?://|sentinel://" (broker_url ns) = true) /\
      exists key cert cacert,
        conf_get conf "celery" "SSL_KEY" = inr key /\
        conf_get conf "celery" "SSL_CERT" = inr cert /\
        conf_get conf "celery" "SSL_CACERT" = inr cacert /\
        ns' = bind_broker_use_ssl
                (if str_contains "amqp://" (broker_url ns)
                 then plain_ssl_options key cert cacert
                 else prefixed_ssl_options key cert cacert)
                (bind_celery_ssl_active true ns)
    else ns' = bind_celery_ssl_active false ns.
Proof.
  unfold configure_broker_ssl. intros H.
  apply bind_inr in H as (active & l1 & Hprobe & H).
  apply get_celery_ssl_active_inr in Hprobe as [-> Hactive].
  unfold try_except in H. destruct active.
  - unfold bind at 1 in H. cbn [bind_celery_ssl_active broker_url] in H.
    destruct (select_broker_use_ssl _ _ _) as [[e | m] l2] eqn:Hsel.
    + cbn [select_clause] in H.
      destruct (isinstance e AirflowConfigException); [discriminate |].
      destruct (isinstance e Exception); discriminate.
    + apply select_broker_use_ssl_inr in Hsel
        as (-> & Hbranch & key & cert & cacert & Hk & Hc & Hca & ->).
      injection H as <- <-. split; [reflexivity |].
      exists true. split; [exact Hactive |]. split; [exact Hbranch |].
      by exists key, cert, cacert.
  - injection H as <- <-. split; [reflexivity |].
    exists false. split; [exact Hactive | reflexivity].
Qed.

End SslOutcomes.

(** ** Failures of the SSL branches (lines 88-121) *)

Section SslFailures.
Import Scenarios.
Variable conf : AirflowConfigParser.

(** When line 90 or line 97 selects a branch, the first of its reads that
    raises ends it. *)
Lemma select_broker_use_ssl_fails url l e :
  str_contains "amqp://" url = true \/
  Re2.search "rediss?://|sentinel://" url = true ->
  first_failure (ssl_reads conf) = Some e ->
  select_broker_use_ssl conf url l = (inl e, l).
Proof.
  intros Hbranch Hfail.
  assert (Htruthy : truthy_str url = true).
  { destruct Hbranch as [H | H]; [by destruct url | by apply search_truthy]. }
  unfold select_broker_use_ssl. rewrite Htruthy. cbn [andb].
  unfold ssl_reads in Hfail. unfold bind, call, ret.
  destruct (str_contains "amqp://" url);
    [| destruct Hbranch as [? | ->]; [discriminate |]];
    (destruct (conf_get conf "celery" "SSL_KEY");
       [cbn in Hfail; by injection Hfail as -> |]);
    (destruct (conf_get conf "celery" "SSL_CERT");
       [cbn in Hfail; by injection Hfail as -> |]);
    (destruct (conf_get conf "celery" "SSL_CACERT");
       [cbn in Hfail; by injection Hfail as -> | cbn in Hfail; discriminate]).
Qed.

(** The [try] statement with a body that raised [e]. *)
Lemma configure_broker_ssl_raised ns l e :
  conf_getboolean conf "celery" "SSL_ACTIVE" = inr true ->
  select_broker_use_ssl conf (broker_url ns) l = (inl e, l) ->
  configure_broker_ssl conf ns l
  = (inl (if isinstance e AirflowConfigException then ssl_options_missing_error
          else if isinstance e Exception then unknown_ssl_error e
          else e), l).
Proof.
  intros Hact Hsel. unfold configure_broker_ssl.
  rewrite (bind_run _ _ _ _ _ (get_celery_ssl_active_value conf true l Hact)).
  unfold try_except. cbn [bind_celery_ssl_active broker_url].
  rewrite (bind_fail _ _ _ _ _ Hsel). cbn [select_clause].
  destruct (isinstance e AirflowConfigException); [reflexivity |].
  by destruct (isinstance e Exception).
Qed.

End SslFailures.

(** X1. With SSL active and a broker URL that selects one of the two
    branches, when the first read among [celery.SSL_KEY], [celery.SSL_CERT],
    [celery.SSL_CACERT] that raises does so with an
    [AirflowConfigException], the script fails with the [AirflowException]
    of lines 112-116, which names the three options. *)
Theorem ssl_options_missing_reported
    (conf : AirflowConfigParser) (l : list log_record)
    (ns0 : namespace) (l0 : list log_record) (e : exn) :
  assemble_default_config conf l = (inr ns0, l0) ->
  conf_getboolean conf "celery" "SSL_ACTIVE" = inr true ->
  str_contains "amqp://" (broker_url ns0) = true \/
  Re2.search "rediss?://|sentinel://" (broker_url ns0) = true ->
  Scenarios.first_failure (Scenarios.ssl_reads conf) = Some e ->
  isinstance e AirflowConfigException = true ->
  module_body conf l
  = (inl (Raise AirflowException
            "AirflowConfigException: SSL_ACTIVE is True, please ensure SSL_KEY, SSL_CERT and SSL_CACERT are set"),
     l0).
Proof.
  intros Hasm Hact Hbranch Hfail He.
  apply (module_body_ssl_fails conf l ns0 l0 _ _ Hasm).
  rewrite (configure_broker_ssl_raised conf ns0 l0 e Hact
             (select_broker_use_ssl_fails conf _ l0 e Hbranch Hfail)).
  by rewrite He.
Qed.

Lemma ssl_options_missing_reported_witness :
  module_body (Scenarios.ssl_without_cert_conf "amqp://guest@rabbit:5672//") []
  = (inl (Raise AirflowException
            "AirflowConfigException: SSL_ACTIVE is True, please ensure SSL_KEY, SSL_CERT and SSL_CACERT are set"),
     [LogRecord DEBUG result_backend_debug]).
Proof.
  set (conf := Scenarios.ssl_without_cert_conf "amqp://guest@rabbit:5672//").
  assert (Hok : SampleConf.succeeded (assemble_default_config conf []) = true)
    by evaluate.
  assert (Hact : conf_getboolean conf "celery" "SSL_ACTIVE" = inr true)
    by evaluate.
  assert (Hamqp : str_contains "amqp://" (broker_url (SampleConf.assembled conf))
                  = true) by evaluate.
  assert (Hfail : Scenarios.first_failure (Scenarios.ssl_reads conf)
                  = Some (SampleConf.not_found "celery" "SSL_CERT")) by evaluate.
  pose proof (ssl_options_missing_reported conf [] _ _ _
                (assembled_outcome conf Hok) Hact (or_introl Hamqp) Hfail eq_refl)
    as H.
  vm_compute in H. vm_compute. exact H.
Defined.

(** X2. In the same situation an exception of another class is wrapped
    by lines 118-121 when it is an [Exception], with its text in
    parentheses, and leaves the script unchanged when it is not (a
    [KeyboardInterrupt], say). *)
Theorem ssl_other_failure_wrapped
    (conf : AirflowConfigParser) (l : list log_record)
    (ns0 : namespace) (l0 : list log_record) (e : exn) :
  assemble_default_config conf l = (inr ns0, l0) ->
  conf_getboolean conf "celery" "SSL_ACTIVE" = inr true ->
  str_contains "amqp://" (broker_url ns0) = true \/
  Re2.search "rediss?://|sentinel://" (broker_url ns0) = true ->
  Scenarios.first_failure (Scenarios.ssl_reads conf) = Some e ->
  isinstance e AirflowConfigException = false ->
  module_body conf l
  = (inl (if isinstance e Exception then
            Raise AirflowException
              ("Exception: There was an unknown Celery SSL Error. Please ensure you want to use SSL and/or have all necessary certs and key ("
               ++ exn_str e ++ ").")
          else e),
     l0).
Proof.
  intros Hasm Hact Hbranch Hfail He.
  apply (module_body_ssl_fails conf l ns0 l0 _ _ Hasm).
  rewrite (configure_broker_ssl_raised conf ns0 l0 e Hact
             (select_broker_use_ssl_fails conf _ l0 e Hbranch Hfail)).
  by rewrite He.
Qed.

Lemma ssl_other_failure_wrapped_witness :
  module_body
    (Scenarios.failing_get (Raise KeyError "'SSL_KEY'") "celery" "SSL_KEY"
       (SampleConf.ssl_conf "rediss://broker:6380/0")) []
  = (inl (Raise AirflowException
            "Exception: There was an unknown Celery SSL Error. Please ensure you want to use SSL and/or have all necessary certs and key ('SSL_KEY')."),
     [LogRecord DEBUG result_backend_debug]) /\
  module_body
    (Scenarios.failing_get (Raise KeyboardInterrupt "interrupted") "celery" "SSL_KEY"
       (SampleConf.ssl_conf "rediss://broker:6380/0")) []
  = (inl (Raise KeyboardInterrupt "interrupted"),
     [LogRecord DEBUG result_backend_debug]).
Proof.
  split.
  - set (conf := Scenarios.failing_get (Raise KeyError "'SSL_KEY'") "celery"
                   "SSL_KEY" (SampleConf.ssl_conf "rediss://broker:6380/0")).
    assert (Hok : SampleConf.succeeded (assemble_default_config conf []) = true)
      by evaluate.
    assert (Hact : conf_getboolean conf "celery" "SSL_ACTIVE" = inr true)
      by evaluate.
    assert (Hre : Re2.search "rediss?://|sentinel://"
                    (broker_url (SampleConf.assembled conf)) = true) by evaluate.
    assert (Hfail : Scenarios.first_failure (Scenarios.ssl_reads conf)
                    = Some (Raise KeyError "'SSL_KEY'")) by evaluate.
    pose proof (ssl_other_failure_wrapped conf [] _ _ _
                  (assembled_outcome conf Hok) Hact (or_intror Hre) Hfail eq_refl)
      as H.
    vm_compute in H. vm_compute. exact H.
  - set (conf := Scenarios.failing_get (Raise KeyboardInterrupt "interrupted")
                   "celery" "SSL_KEY"
                   (SampleConf.ssl_conf "rediss://broker:6380/0")).
    assert (Hok : SampleConf.succeeded (assemble_default_config conf []) = true)
      by evaluate.
    assert (Hact : conf_getboolean conf "celery" "SSL_ACTIVE" = inr true)
      by evaluate.
    assert (Hre : Re2.search "rediss?://|sentinel://"
                    (broker_url (SampleConf.assembled conf)) = true) by evaluate.
    assert (Hfail : Scenarios.first_failure (Scenarios.ssl_reads conf)
                    = Some (Raise KeyboardInterrupt "interrupted")) by evaluate.
    pose proof (ssl_other_failure_wrapped conf [] _ _ _
                  (assembled_outcome conf Hok) Hact (or_intror Hre) Hfail eq_refl)
      as H.
    vm_compute in H. vm_compute. exact H.
Defined.

(** ** The log of a run *)

Section Logs.
Import Scenarios.
Variable conf : AirflowConfigParser.

Lemma read_result_backend_inr l rb l' :
  read_result_backend conf l = (inr rb, l') ->
  l' = (l ++ result_backend_debug_records conf)%list.
Proof.
  unfold read_result_backend, result_backend_debug_records, bind, call, ret,
    log_debug.
  destruct (conf_has_option conf "celery" "RESULT_BACKEND") as [? | []];
    [discriminate | |].
  - destruct (conf_get_mandatory_value conf "celery" "RESULT_BACKEND");
      [discriminate |].
    intros [= _ <-]. by rewrite app_nil_r.
  - destruct (conf_get conf "database" "SQL_ALCHEMY_CONN"); [discriminate |].
    by intros [= _ <-].
Qed.

Lemma assemble_default_config_log l ns l' :
  assemble_default_config conf l = (inr ns, l') ->
  l' = (l ++ result_backend_debug_records conf)%list.
Proof.
  intros H. apply assemble_default_config_inr in H
    as (section & _ & _ & _ & _ & Hrb & _).
  by apply read_result_backend_inr in Hrb.
Qed.

End Logs.

(** X3. The log of a run that completes: the debug message of line 56
    when [celery.RESULT_BACKEND] is not set, then the warning of line 82
    when the read of [celery.SSL_ACTIVE] raised, then the warning of lines
    124-128 when [result_backend] matches; nothing else is logged. *)
Theorem completed_run_log
    (conf : AirflowConfigParser) (l : list log_record)
    (ns : namespace) (l' : list log_record) :
  module_body conf l = (inr ns, l') ->
  l' = (l ++ Scenarios.result_backend_debug_records conf
          ++ Scenarios.ssl_probe_records conf
          ++ result_backend_records (result_backend ns))%list.
Proof.
  intros H. apply module_body_inr in H as (ns0 & l0 & l1 & Hasm & Hssl & Hchk).
  apply assemble_default_config_log in Hasm as ->.
  apply configure_broker_ssl_outcome in Hssl as [-> _].
  rewrite check_result_backend_run in Hchk. injection Hchk as <-.
  by rewrite <- !app_assoc.
Qed.

Lemma completed_run_log_witness :
  SampleConf.completed_log SampleConf.redis_conf
  = ([] ++ Scenarios.result_backend_debug_records SampleConf.redis_conf
        ++ Scenarios.ssl_probe_records SampleConf.redis_conf
        ++ result_backend_records
             (result_backend (SampleConf.completed SampleConf.redis_conf)))%list /\
  SampleConf.completed_log SampleConf.redis_conf
  = [LogRecord DEBUG result_backend_debug; ssl_warning].
Proof.
  assert (Hok : SampleConf.succeeded (module_body SampleConf.redis_conf []) = true)
    by evaluate.
  split; [| evaluate].
  exact (completed_run_log SampleConf.redis_conf [] _ _
           (completed_outcome SampleConf.redis_conf Hok)).
Defined.

(** X4. In a run that completes, [DEFAULT_CELERY_CONFIG] has the key
    [broker_use_ssl] exactly when the name [broker_use_ssl] is bound, and
    that is exactly when SSL is active; the dictionary is then the plain
    one if the broker URL contains [amqp://] and the prefixed one
    otherwise, built from the three SSL options. *)
Theorem broker_use_ssl_of_completed_run
    (conf : AirflowConfigParser) (l : list log_record)
    (ns : namespace) (l' : list log_record) :
  module_body conf l = (inr ns, l') ->
  DEFAULT_CELERY_CONFIG ns !! "broker_use_ssl" = VDict <$> broker_use_ssl ns /\
  exists active,
    celery_ssl_active ns = Some active /\
    match conf_getboolean conf "celery" "SSL_ACTIVE" with
    | inr b => active = b
    | inl e => active = false /\ isinstance e AirflowConfigException = true
    end /\
    if active : bool then
      (str_contains "amqp://" (broker_url ns) = true \/
       Re2.search "rediss?://|sentinel://" (broker_url ns) = true) /\
      exists key cert cacert,
        conf_get conf "celery" "SSL_KEY" = inr key /\
        conf_get conf "celery" "SSL_CERT" = inr cert /\
        conf_get conf "celery" "SSL_CACERT" = inr cacert /\
        broker_use_ssl ns
        = Some (if str_contains "amqp://" (broker_url ns)
                then plain_ssl_options key cert cacert
                else prefixed_ssl_options key cert cacert)
    else broker_use_ssl ns = None.
Proof.
  intros H. apply module_body_inr in H as (ns0 & l0 & l1 & Hasm & Hssl & _).
  apply assemble_default_config_inr in Hasm
    as (section & _ & _ & _ & _ & _ & _ & _ & Hnokey & _ & Hunbound).
  apply configure_broker_ssl_outcome in Hssl as (_ & active & Hactive & Hns).
  destruct active.
  - destruct Hns as (Hbranch & key & cert & cacert & Hk & Hc & Hca & ->).
    cbn. split; [apply lookup_insert_eq |].
    exists true. split; [reflexivity |]. split; [exact Hactive |].
    split; [exact Hbranch |]. by exists key, cert, cacert.
  - subst ns. cbn. rewrite Hnokey, Hunbound. split; [reflexivity |].
    exists false. split; [reflexivity |]. by split.
Qed.

Lemma broker_use_ssl_of_completed_run_witness :
  DEFAULT_CELERY_CONFIG
    (SampleConf.completed (SampleConf.ssl_conf "rediss://broker:6380/0"))
    !! "broker_use_ssl"
  = VDict <$> broker_use_ssl
                (SampleConf.completed (SampleConf.ssl_conf "rediss://broker:6380/0")) /\
  broker_use_ssl
    (SampleConf.completed (SampleConf.ssl_conf "rediss://broker:6380/0"))
  = Some (prefixed_ssl_options "/etc/ssl/key.pem" "/etc/ssl/cert.pem"
            "/etc/ssl/ca.pem").
Proof.
  set (conf := SampleConf.ssl_conf "rediss://broker:6380/0").
  assert (Hok : SampleConf.succeeded (module_body conf []) = true) by evaluate.
  destruct (broker_use_ssl_of_completed_run conf [] _ _
              (completed_outcome conf Hok))
    as (Hstored & active & Hbound & Hactive & Houtcome).
  split; [exact Hstored |].
  assert (Hact : conf_getboolean conf "celery" "SSL_ACTIVE" = inr true)
    by evaluate.
  rewrite Hact in Hactive. subst active.
  destruct Houtcome as (_ & key & cert & cacert & Hk & Hc & Hca & Hssl).
  assert (Hk' : conf_get conf "celery" "SSL_KEY" = inr "/etc/ssl/key.pem")
    by evaluate.
  assert (Hc' : conf_get conf "celery" "SSL_CERT" = inr "/etc/ssl/cert.pem")
    by evaluate.
  assert (Hca' : conf_get conf "celery" "SSL_CACERT" = inr "/etc/ssl/ca.pem")
    by evaluate.
  rewrite Hk' in Hk. rewrite Hc' in Hc. rewrite Hca' in Hca.
  injection Hk as <-. injection Hc as <-. injection Hca as <-.
  assert (Hamqp : str_contains "amqp://" (broker_url (SampleConf.completed conf))
                  = false) by evaluate.
  rewrite Hamqp in Hssl. exact Hssl.
Defined.

(** X5. When [celery.SSL_ACTIVE] reads [False] the script completes for
    every broker URL, also one no SSL branch accepts: lines 90-110 are
    skipped, [broker_use_ssl] stays unbound and [DEFAULT_CELERY_CONFIG]
    gets no [broker_use_ssl] entry. *)
Theorem ssl_inactive_accepts_any_broker
    (conf : AirflowConfigParser) (l : list log_record)
    (ns0 : namespace) (l0 : list log_record) :
  assemble_default_config conf l = (inr ns0, l0) ->
  conf_getboolean conf "celery" "SSL_ACTIVE" = inr false ->
  module_body conf l
  = (inr (bind_celery_ssl_active false ns0),
     (l0 ++ result_backend_records (result_backend ns0))%list) /\
  broker_use_ssl (bind_celery_ssl_active false ns0) = None /\
  DEFAULT_CELERY_CONFIG (bind_celery_ssl_active false ns0) !! "broker_use_ssl"
  = None.
Proof.
  intros Hasm Hact.
  rewrite (module_body_completes conf l ns0 l0 _ _ Hasm
             (configure_broker_ssl_inactive conf ns0 l0 _
                (get_celery_ssl_active_value conf false l0 Hact))).
  apply assemble_default_config_inr in Hasm
    as (section & _ & _ & _ & _ & _ & _ & _ & Hnokey & _ & Hunbound).
  cbn. by rewrite Hnokey, Hunbound.
Qed.

Lemma ssl_inactive_accepts_any_broker_witness :
  module_body (Scenarios.ssl_inactive_conf "sqs://sqs.eu-west-1.amazonaws.com") []
  = (inr (bind_celery_ssl_active false
            (SampleConf.assembled
               (Scenarios.ssl_inactive_conf "sqs://sqs.eu-west-1.amazonaws.com"))),
     (SampleConf.assembled_log
        (Scenarios.ssl_inactive_conf "sqs://sqs.eu-west-1.amazonaws.com")
      ++ result_backend_records
           (result_backend
              (SampleConf.assembled
                 (Scenarios.ssl_inactive_conf
                    "sqs://sqs.eu-west-1.amazonaws.com"))))%list) /\
  broker_use_ssl
    (bind_celery_ssl_active false
       (SampleConf.assembled
          (Scenarios.ssl_inactive_conf "sqs://sqs.eu-west-1.amazonaws.com")))
  = None /\
  DEFAULT_CELERY_CONFIG
    (bind_celery_ssl_active false
       (SampleConf.assembled
          (Scenarios.ssl_inactive_conf "sqs://sqs.eu-west-1.amazonaws.com")))
    !! "broker_use_ssl" = None.
Proof.
  set (conf := Scenarios.ssl_inactive_conf "sqs://sqs.eu-west-1.amazonaws.com").
  assert (Hok : SampleConf.succeeded (assemble_default_config conf []) = true)
    by evaluate.
  assert (Hact : conf_getboolean conf "celery" "SSL_ACTIVE" = inr false)
    by evaluate.
  exact (ssl_inactive_accepts_any_broker conf [] _ _
           (assembled_outcome conf Hok) Hact).
Defined.

(** X6. Once lines 36-75 have run, the script never fails with an
    [AirflowConfigException]: line 81 swallows it, line 111 replaces it,
    and nothing else raises one. *)
Theorem no_config_exception_after_assembly
    (conf : AirflowConfigParser) (l : list log_record)
    (ns0 : namespace) (l0 : list log_record)
    (e : exn) (l' : list log_record) :
  assemble_default_config conf l = (inr ns0, l0) ->
  module_body conf l = (inl e, l') ->
  isinstance e AirflowConfigException = false.
Proof.
  intros Hasm. unfold module_body. rewrite (bind_run _ _ _ _ _ Hasm).
  unfold bind at 1.
  destruct (configure_broker_ssl conf ns0 l0) as [[e0 | ns] l1] eqn:Hssl.
  - intros [= <- _]. by apply configure_broker_ssl_inl in Hssl.
  - rewrite (bind_run _ _ _ _ _ (check_result_backend_run ns l1)). discriminate.
Qed.

Lemma no_config_exception_after_assembly_witness :
  module_body (Scenarios.ssl_without_cert_conf "amqp://guest@rabbit:5672//") []
  = (inl ssl_options_missing_error, [LogRecord DEBUG result_backend_debug]) /\
  isinstance ssl_options_missing_error AirflowConfigException = false.
Proof.
  set (conf := Scenarios.ssl_without_cert_conf "amqp://guest@rabbit:5672//").
  assert (Hok : SampleConf.succeeded (assemble_default_config conf []) = true)
    by evaluate.
  assert (Hrun : module_body conf []
                 = (inl ssl_options_missing_error,
                    [LogRecord DEBUG result_backend_debug])) by evaluate.
  split; [exact Hrun |].
  exact (no_config_exception_after_assembly conf [] _ _ _ _
           (assembled_outcome conf Hok) Hrun).
Defined.

(** ** The dictionary display (lines 59-75) *)

Section DefaultConfig.
Import Scenarios.
Variable conf : AirflowConfigParser.

Lemma build_default_celery_config_entries url opts rb l cfg l' :
  build_default_celery_config conf url opts rb l = (inr cfg, l') ->
  exists prefetch queue track engine concurrency remote,
    conf_getint conf "celery" "worker_prefetch_multiplier" = inr prefetch /\
    conf_get conf "operators" "DEFAULT_QUEUE" = inr queue /\
    conf_getboolean conf "celery" "task_track_started" = inr track /\
    conf_getjson conf "celery" "result_backend_sqlalchemy_engine_options"
      (VDict ∅) = inr engine /\
    conf_getint conf "celery" "WORKER_CONCURRENCY" = inr concurrency /\
    conf_getboolean conf "celery" "worker_enable_remote_control" = inr remote /\
    cfg = list_to_map
            [("accept_content", VList [VStr "json"]);
             ("event_serializer", VStr "json");
             ("worker_prefetch_multiplier", VInt prefetch);
             ("task_acks_late", VBool true);
             ("task_default_queue", VStr queue);
             ("task_default_exchange", VStr queue);
             ("task_track_started", VBool track);
             ("broker_url", VStr url);
             ("broker_transport_options", VDict opts);
             ("result_backend", VStr rb);
             ("database_engine_options", engine);
             ("worker_concurrency", VInt concurrency);
             ("worker_enable_remote_control", VBool remote)].
Proof.
  unfold build_default_celery_config, bind, call, ret.
  destruct (conf_getint conf "celery" "worker_prefetch_multiplier")
    as [? | prefetch]; [discriminate |].
  destruct (conf_get conf "operators" "DEFAULT_QUEUE") as [? | queue];
    [discriminate |].
  destruct (conf_getboolean conf "celery" "task_track_started") as [? | track];
    [discriminate |].
  destruct (conf_getjson conf "celery" "result_backend_sqlalchemy_engine_options"
              (VDict ∅)) as [? | engine]; [discriminate |].
  destruct (conf_getint conf "celery" "WORKER_CONCURRENCY") as [? | concurrency];
    [discriminate |].
  destruct (conf_getboolean conf "celery" "worker_enable_remote_control")
    as [? | remote]; [discriminate |].
  intros [= <- _]. by exists prefetch, queue, track, engine, concurrency, remote.
Qed.

Lemma dom_default_config (entries : list (string * pyvalue)) :
  entries.*1
  = ["accept_content"; "event_serializer"; "worker_prefetch_multiplier";
     "task_acks_late"; "task_default_queue"; "task_default_exchange";
     "task_track_started"; "broker_url"; "broker_transport_options";
     "result_backend"; "database_engine_options"; "worker_concurrency";
     "worker_enable_remote_control"] ->
  dom (list_to_map entries : gmap string pyvalue) = default_config_keys.
Proof.
  intros H. rewrite dom_list_to_map_L, H. unfold default_config_keys.
  cbn [list_to_set foldr]. by rewrite (right_id_L ∅ (∪)).
Qed.

End DefaultConfig.

Section DefaultConfigRun.
Import Scenarios.
Variable conf : AirflowConfigParser.

Lemma assemble_default_config_entries l ns l' :
  assemble_default_config conf l = (inr ns, l') ->
  broker_use_ssl ns = None /\
  build_default_celery_config conf (broker_url ns)
    (broker_transport_options_for_celery ns) (result_backend ns) l'
  = (inr (DEFAULT_CELERY_CONFIG ns), l').
Proof.
  unfold assemble_default_config. intros H.
  apply bind_inr in H as (url & l1 & _ & H).
  apply bind_inr in H as (section & l2 & _ & H).
  apply bind_inr in H as (d & l3 & _ & H).
  apply bind_inr in H as (rb & l4 & _ & H).
  apply bind_inr in H as (cfg & l5 & Hcfg & H).
  injection H as <- <-. cbn. split; [reflexivity |].
  pose proof Hcfg as Hlog.
  apply build_default_celery_config_inr in Hlog as [-> _]. exact Hcfg.
Qed.

(** The dictionary at the end of a run: the display of lines 59-75, with
    the entry of line 110 when [broker_use_ssl] is bound. *)
Lemma module_body_default_config l ns l' :
  module_body conf l = (inr ns, l') ->
  exists cfg l0,
    build_default_celery_config conf (broker_url ns)
      (broker_transport_options_for_celery ns) (result_backend ns) l0
    = (inr cfg, l0) /\
    DEFAULT_CELERY_CONFIG ns
    = match broker_use_ssl ns with
      | Some m => <["broker_use_ssl" := VDict m]> cfg
      | None => cfg
      end.
Proof.
  intros H. apply module_body_inr in H as (ns0 & l0 & l1 & Hasm & Hssl & _).
  apply assemble_default_config_entries in Hasm as [Hunbound Hcfg].
  exists (DEFAULT_CELERY_CONFIG ns0), l0.
  apply configure_broker_ssl_outcome in Hssl as (_ & active & _ & Hns).
  destruct active.
  - destruct Hns as (_ & key & cert & cacert & _ & _ & _ & ->). by cbn.
  - subst ns. cbn. by rewrite Hunbound.
Qed.

End DefaultConfigRun.

(** X7. The keys of [DEFAULT_CELERY_CONFIG] at the end of a run that
    completes are the thirteen of the display of lines 59-75, and
    [broker_use_ssl] besides exactly when that name is bound. *)
Theorem default_config_keys_of_completed_run
    (conf : AirflowConfigParser) (l : list log_record)
    (ns : namespace) (l' : list log_record) :
  module_body conf l = (inr ns, l') ->
  dom (DEFAULT_CELERY_CONFIG ns)
  = match broker_use_ssl ns with
    | Some _ => {["broker_use_ssl"]} ∪ Scenarios.default_config_keys
    | None => Scenarios.default_config_keys
    end.
Proof.
  intros H. apply module_body_default_config in H as (cfg & l0 & Hcfg & ->).
  apply build_default_celery_config_entries in Hcfg
    as (prefetch & queue & track & engine & concurrency & remote
        & _ & _ & _ & _ & _ & _ & ->).
  destruct (broker_use_ssl ns);
    rewrite ?dom_insert_L, dom_default_config; reflexivity.
Qed.

Lemma default_config_keys_of_completed_run_witness :
  dom (DEFAULT_CELERY_CONFIG
         (SampleConf.completed (SampleConf.ssl_conf "amqp://guest@rabbit:5672//")))
  = match broker_use_ssl
            (SampleConf.completed
               (SampleConf.ssl_conf "amqp://guest@rabbit:5672//")) with
    | Some _ => {["broker_use_ssl"]} ∪ Scenarios.default_config_keys
    | None => Scenarios.default_config_keys
    end.
Proof.
  set (conf := SampleConf.ssl_conf "amqp://guest@rabbit:5672//").
  assert (Hok : SampleConf.succeeded (module_body conf []) = true) by evaluate.
  exact (default_config_keys_of_completed_run conf [] _ _
           (completed_outcome conf Hok)).
Defined.

(** X8. The entries of [DEFAULT_CELERY_CONFIG] at the end of a run that
    completes: the three constants, the six options as the configuration
    returned them, with [task_default_queue] and [task_default_exchange]
    both [operators.DEFAULT_QUEUE], and the broker URL, the copy of the
    transport options and the result backend the script bound. *)
Theorem default_config_entries_of_completed_run
    (conf : AirflowConfigParser) (l : list log_record)
    (ns : namespace) (l' : list log_record) :
  module_body conf l = (inr ns, l') ->
  exists prefetch queue track engine concurrency remote,
    conf_getint conf "celery" "worker_prefetch_multiplier" = inr prefetch /\
    conf_get conf "operators" "DEFAULT_QUEUE" = inr queue /\
    conf_getboolean conf "celery" "task_track_started" = inr track /\
    conf_getjson conf "celery" "result_backend_sqlalchemy_engine_options"
      (VDict ∅) = inr engine /\
    conf_getint conf "celery" "WORKER_CONCURRENCY" = inr concurrency /\
    conf_getboolean conf "celery" "worker_enable_remote_control" = inr remote /\
    DEFAULT_CELERY_CONFIG ns !! "accept_content" = Some (VList [VStr "json"]) /\
    DEFAULT_CELERY_CONFIG ns !! "event_serializer" = Some (VStr "json") /\
    DEFAULT_CELERY_CONFIG ns !! "worker_prefetch_multiplier"
      = Some (VInt prefetch) /\
    DEFAULT_CELERY_CONFIG ns !! "task_acks_late" = Some (VBool true) /\
    DEFAULT_CELERY_CONFIG ns !! "task_default_queue" = Some (VStr queue) /\
    DEFAULT_CELERY_CONFIG ns !! "task_default_exchange" = Some (VStr queue) /\
    DEFAULT_CELERY_CONFIG ns !! "task_track_started" = Some (VBool track) /\
    DEFAULT_CELERY_CONFIG ns !! "broker_url" = Some (VStr (broker_url ns)) /\
    DEFAULT_CELERY_CONFIG ns !! "broker_transport_options"
      = Some (VDict (broker_transport_options_for_celery ns)) /\
    DEFAULT_CELERY_CONFIG ns !! "result_backend"
      = Some (VStr (result_backend ns)) /\
    DEFAULT_CELERY_CONFIG ns !! "database_engine_options" = Some engine /\
    DEFAULT_CELERY_CONFIG ns !! "worker_concurrency" = Some (VInt concurrency) /\
    DEFAULT_CELERY_CONFIG ns !! "worker_enable_remote_control"
      = Some (VBool remote).
Proof.
  intros H. apply module_body_default_config in H as (cfg & l0 & Hcfg & Hfinal).
  apply build_default_celery_config_entries in Hcfg
    as (prefetch & queue & track & engine & concurrency & remote
        & H1 & H2 & H3 & H4 & H5 & H6 & ->).
  exists prefetch, queue, track, engine, concurrency, remote.
  do 6 (split; [assumption |]).
  rewrite Hfinal.
  destruct (broker_use_ssl ns);
    rewrite ?lookup_insert_ne by discriminate;
    repeat split; vm_compute; reflexivity.
Qed.

Lemma default_config_entries_of_completed_run_witness :
  exists prefetch queue track engine concurrency remote,
    conf_getint SampleConf.redis_conf "celery" "worker_prefetch_multiplier"
      = inr prefetch /\
    conf_get SampleConf.redis_conf "operators" "DEFAULT_QUEUE" = inr queue /\
    conf_getboolean SampleConf.redis_conf "celery" "task_track_started"
      = inr track /\
    conf_getjson SampleConf.redis_conf "celery"
      "result_backend_sqlalchemy_engine_options" (VDict ∅) = inr engine /\
    conf_getint SampleConf.redis_conf "celery" "WORKER_CONCURRENCY"
      = inr concurrency /\
    conf_getboolean SampleConf.redis_conf "celery" "worker_enable_remote_control"
      = inr remote /\
    DEFAULT_CELERY_CONFIG (SampleConf.completed SampleConf.redis_conf)
      !! "accept_content" = Some (VList [VStr "json"]) /\
    DEFAULT_CELERY_CONFIG (SampleConf.completed SampleConf.redis_conf)
      !! "event_serializer" = Some (VStr "json") /\
    DEFAULT_CELERY_CONFIG (SampleConf.completed SampleConf.redis_conf)
      !! "worker_prefetch_multiplier" = Some (VInt prefetch) /\
    DEFAULT_CELERY_CONFIG (SampleConf.completed SampleConf.redis_conf)
      !! "task_acks_late" = Some (VBool true) /\
    DEFAULT_CELERY_CONFIG (SampleConf.completed SampleConf.redis_conf)
      !! "task_default_queue" = Some (VStr queue) /\
    DEFAULT_CELERY_CONFIG (SampleConf.completed SampleConf.redis_conf)
      !! "task_default_exchange" = Some (VStr queue) /\
    DEFAULT_CELERY_CONFIG (SampleConf.completed SampleConf.redis_conf)
      !! "task_track_started" = Some (VBool track) /\
    DEFAULT_CELERY_CONFIG (SampleConf.completed SampleConf.redis_conf)
      !! "broker_url"
      = Some (VStr (broker_url (SampleConf.completed SampleConf.redis_conf))) /\
    DEFAULT_CELERY_CONFIG (SampleConf.completed SampleConf.redis_conf)
      !! "broker_transport_options"
      = Some (VDict (broker_transport_options_for_celery
                       (SampleConf.completed SampleConf.redis_conf))) /\
    DEFAULT_CELERY_CONFIG (SampleConf.completed SampleConf.redis_conf)
      !! "result_backend"
      = Some (VStr (result_backend
                      (SampleConf.completed SampleConf.redis_conf))) /\
    DEFAULT_CELERY_CONFIG (SampleConf.completed SampleConf.redis_conf)
      !! "database_engine_options" = Some engine /\
    DEFAULT_CELERY_CONFIG (SampleConf.completed SampleConf.redis_conf)
      !! "worker_concurrency" = Some (VInt concurrency) /\
    DEFAULT_CELERY_CONFIG (SampleConf.completed SampleConf.redis_conf)
      !! "worker_enable_remote_control" = Some (VBool remote).
Proof.
  assert (Hok : SampleConf.succeeded (module_body SampleConf.redis_conf []) = true)
    by evaluate.
  exact (default_config_entries_of_completed_run SampleConf.redis_conf [] _ _
           (completed_outcome SampleConf.redis_conf Hok)).
Defined.

(** ** Failures of the assembly phase *)

Section AssemblyFailures.
Import Scenarios.
Variable conf : AirflowConfigParser.

Lemma copy_for_celery_inl opts l e l' :
  copy_for_celery opts l = (inl e, l') -> e = sentinel_kwargs_error.
Proof.
  destruct (opts !! "sentinel_kwargs") as [v |] eqn:Hv.
  - destruct (isinstance_dict v) eqn:Hd.
    + destruct v; try discriminate Hd.
      by rewrite (copy_for_celery_dict _ _ _ Hv).
    + rewrite (copy_for_celery_not_dict _ _ _ Hv Hd). by intros [= <- _].
  - by rewrite (copy_for_celery_absent _ _ Hv).
Qed.

End AssemblyFailures.

(** X9. In a run that completes, the copy handed to Celery equals
    [broker_transport_options], and every key other than
    [visibility_timeout] has the value, or the absence, it has in the
    section read from the configuration. *)
Theorem transport_options_passed_through
    (conf : AirflowConfigParser) (section : option (gmap string pyvalue))
    (l : list log_record) (ns : namespace) (l' : list log_record) :
  conf_getsection conf "celery_broker_transport_options" = inr section ->
  module_body conf l = (inr ns, l') ->
  broker_transport_options_for_celery ns = broker_transport_options ns /\
  forall k,
    k <> "visibility_timeout" ->
    broker_transport_options_for_celery ns !! k = or_empty_dict section !! k.
Proof.
  intros Hsec Hrun.
  apply module_body_assembled in Hrun
    as (section' & l0 & _ & Hsec' & Hopts & Hcopy & _).
  rewrite Hsec in Hsec'. injection Hsec' as <-.
  split; [exact Hcopy |].
  intros k Hk. rewrite Hcopy, Hopts. by apply default_visibility_timeout_other.
Qed.

Lemma transport_options_passed_through_witness :
  broker_transport_options_for_celery
    (SampleConf.completed Scenarios.amqp_options_conf)
  = broker_transport_options (SampleConf.completed Scenarios.amqp_options_conf) /\
  broker_transport_options_for_celery
    (SampleConf.completed Scenarios.amqp_options_conf) !! "max_retries"
  = Some (VInt 3) /\
  broker_transport_options_for_celery
    (SampleConf.completed Scenarios.amqp_options_conf) !! "visibility_timeout"
  = None.
Proof.
  set (conf := Scenarios.amqp_options_conf).
  assert (Hok : SampleConf.succeeded (module_body conf []) = true) by evaluate.
  destruct (transport_options_passed_through conf _ [] _ _ eq_refl
              (completed_outcome conf Hok)) as [Hcopy Hkeys].
  split; [exact Hcopy |]. split; [| evaluate].
  rewrite Hkeys by discriminate. evaluate.
Defined.

(** X10. For a broker URL that starts with none of [redis://],
    [rediss://], [sqs://], [sentinel://], lines 39-41 leave the transport
    options as they were read, with or without a [visibility_timeout]. *)
Theorem visibility_timeout_not_injected
    (conf : AirflowConfigParser) (url : string)
    (section : option (gmap string pyvalue)) :
  conf_get conf "celery" "BROKER_URL" = inr url ->
  conf_getsection conf "celery_broker_transport_options" = inr section ->
  String.prefix "redis://" url = false ->
  String.prefix "rediss://" url = false ->
  String.prefix "sqs://" url = false ->
  String.prefix "sentinel://" url = false ->
  default_visibility_timeout url (or_empty_dict section) = or_empty_dict section /\
  forall l ns l',
    module_body conf l = (inr ns, l') ->
    broker_transport_options ns = or_empty_dict section /\
    broker_transport_options_for_celery ns = or_empty_dict section.
Proof.
  intros Hurl Hsec H1 H2 H3 H4.
  assert (Hsame : default_visibility_timeout url (or_empty_dict section)
                  = or_empty_dict section).
  { unfold default_visibility_timeout, _broker_supports_visibility_timeout,
      startswith. cbn [existsb]. rewrite H1, H2, H3, H4. cbn [orb].
    by destruct (negb _). }
  split; [exact Hsame |].
  intros l ns l' Hrun.
  apply module_body_assembled in Hrun
    as (section' & l0 & Hurl' & Hsec' & Hopts & Hcopy & _).
  rewrite Hurl in Hurl'. injection Hurl' as Eurl.
  rewrite Hsec in Hsec'. injection Hsec' as <-.
  rewrite Hcopy, Hopts, <- Eurl. by split.
Qed.

Lemma visibility_timeout_not_injected_witness :
  module_body Scenarios.amqp_options_conf []
  = (inr (SampleConf.completed Scenarios.amqp_options_conf),
     SampleConf.completed_log Scenarios.amqp_options_conf) /\
  broker_transport_options (SampleConf.completed Scenarios.amqp_options_conf)
  = or_empty_dict
      (SampleConf.transport_section
         {["confirm_publish" := VBool true; "max_retries" := VInt 3]}
         !! "celery_broker_transport_options") /\
  broker_transport_options_for_celery
    (SampleConf.completed Scenarios.amqp_options_conf)
  = or_empty_dict
      (SampleConf.transport_section
         {["confirm_publish" := VBool true; "max_retries" := VInt 3]}
         !! "celery_broker_transport_options").
Proof.
  set (conf := Scenarios.amqp_options_conf).
  assert (Hok : SampleConf.succeeded (module_body conf []) = true) by evaluate.
  assert (Hrun := completed_outcome conf Hok).
  split; [exact Hrun |].
  assert (Hurl : conf_get conf "celery" "BROKER_URL"
                 = inr "amqp://guest@rabbit:5672//") by evaluate.
  exact (proj2 (visibility_timeout_not_injected conf
                  "amqp://guest@rabbit:5672//" _ Hurl eq_refl
                  eq_refl eq_refl eq_refl eq_refl)
           [] _ _ Hrun).
Defined.

(** X11. The last statement of the script never raises, and logs its
    warning exactly when [result_backend] contains [redis://], [rediss://],
    [amqp://] or [rpc://] at some position. *)
Theorem result_backend_warning_by_substring
    (ns : namespace) (l : list log_record) :
  check_result_backend ns l
  = (inr tt,
     if str_contains "redis://" (result_backend ns)
        || str_contains "rediss://" (result_backend ns)
        || str_contains "amqp://" (result_backend ns)
        || str_contains "rpc://" (result_backend ns)
     then (l ++ [LogRecord WARNING
                   ("You have configured a result_backend of "
                    ++ result_backend ns
                    ++ ", it is highly recommended to use an alternative result_backend (i.e. a database).")])%list
     else l).
Proof.
  rewrite check_result_backend_run. unfold result_backend_records.
  rewrite search_backend_pattern.
  destruct (_ || _); [reflexivity | by rewrite app_nil_r].
Qed.

(** X12. With the three SSL options readable, the choice of lines 90-108
    in terms of substrings of the broker URL: [amqp://] anywhere gives the
    plain dictionary; otherwise [redis://], [rediss://] or [sentinel://]
    anywhere gives the prefixed one; otherwise the [AirflowException] of
    line 105 is raised.  The emptiness tests of lines 90 and 97 change
    nothing. *)
Theorem broker_ssl_branch_by_substring
    (conf : AirflowConfigParser) (url key cert cacert : string)
    (l : list log_record) :
  conf_get conf "celery" "SSL_KEY" = inr key ->
  conf_get conf "celery" "SSL_CERT" = inr cert ->
  conf_get conf "celery" "SSL_CACERT" = inr cacert ->
  select_broker_use_ssl conf url l
  = if str_contains "amqp://" url then
      (inr (plain_ssl_options key cert cacert), l)
    else if str_contains "redis://" url || str_contains "rediss://" url
            || str_contains "sentinel://" url then
      (inr (prefixed_ssl_options key cert cacert), l)
    else
      (inl (Raise AirflowException
              "The broker you configured does not support SSL_ACTIVE to be True. Please use RabbitMQ or Redis if you would like to use SSL for broker."),
       l).
Proof.
  intros Hk Hc Hca. rewrite <- search_broker_pattern.
  destruct (str_contains "amqp://" url) eqn:Hamqp.
  - apply select_broker_use_ssl_amqp; [by destruct url | done..].
  - destruct (Re2.search "rediss?://|sentinel://" url) eqn:Hre.
    + apply select_broker_use_ssl_redis; [done | by apply search_truthy | done..].
    + by apply select_broker_use_ssl_unsupported.
Qed.

Lemma broker_ssl_branch_by_substring_witness :
  select_broker_use_ssl
    (SampleConf.ssl_conf "sqs://queue.example.com?dead_letter=redis://cache")
    "sqs://queue.example.com?dead_letter=redis://cache" []
  = (inr (prefixed_ssl_options "/etc/ssl/key.pem" "/etc/ssl/cert.pem"
            "/etc/ssl/ca.pem"), []).
Proof.
  set (conf := SampleConf.ssl_conf
                 "sqs://queue.example.com?dead_letter=redis://cache").
  assert (Hk : conf_get conf "celery" "SSL_KEY" = inr "/etc/ssl/key.pem")
    by evaluate.
  assert (Hc : conf_get conf "celery" "SSL_CERT" = inr "/etc/ssl/cert.pem")
    by evaluate.
  assert (Hca : conf_get conf "celery" "SSL_CACERT" = inr "/etc/ssl/ca.pem")
    by evaluate.
  exact (broker_ssl_branch_by_substring conf
           "sqs://queue.example.com?dead_letter=redis://cache" _ _ _ [] Hk Hc Hca).
Defined.


(** The read [r] is the next call of the script: either it raised, which
    puts its exception among the reads, or the script goes on. *)
Ltac next_read r :=
  let Hr := fresh "Hr" in
  destruct r eqn:Hr;
  [ intros [= <- _]; right;
    match goal with H : _ = Scenarios.assembly_reads _ |- _ => rewrite H end;
    unfold Scenarios.assembly_reads; rewrite Hr; cbn [Scenarios.raised];
    set_solver
  | ].

(** X13. When lines 36-75 fail, the exception is the
    [AirflowException] of line 51 or one that a read of the configuration
    raised, unchanged: nothing is wrapped before the SSL phase. *)
Theorem assembly_failure_origin
    (conf : AirflowConfigParser) (l : list log_record)
    (e : exn) (l' : list log_record) :
  assemble_default_config conf l = (inl e, l') ->
  e = sentinel_kwargs_error \/ Some e ∈ Scenarios.assembly_reads conf.
Proof.
  remember (Scenarios.assembly_reads conf) as reads eqn:Hreads.
  unfold assemble_default_config, read_result_backend,
    build_default_celery_config.
  unfold bind at 1, call at 1.
  next_read (conf_get conf "celery" "BROKER_URL").
  unfold bind at 1, call at 1.
  next_read (conf_getsection conf "celery_broker_transport_options").
  unfold bind at 1.
  destruct (copy_for_celery _ l) as [[e0 | d] l1] eqn:Hcopy;
    [intros [= <- _]; left; by apply copy_for_celery_inl in Hcopy |].
  unfold bind, call, ret, log_debug.
  next_read (conf_has_option conf "celery" "RESULT_BACKEND").
  match goal with |- context [if ?b then _ else _] => destruct b end;
    [next_read (conf_get_mandatory_value conf "celery" "RESULT_BACKEND")
    | next_read (conf_get conf "database" "SQL_ALCHEMY_CONN")];
    next_read (conf_getint conf "celery" "worker_prefetch_multiplier");
    next_read (conf_get conf "operators" "DEFAULT_QUEUE");
    next_read (conf_getboolean conf "celery" "task_track_started");
    next_read (conf_getjson conf "celery"
                 "result_backend_sqlalchemy_engine_options" (VDict ∅));
    next_read (conf_getint conf "celery" "WORKER_CONCURRENCY");
    next_read (conf_getboolean conf "celery" "worker_enable_remote_control");
    discriminate.
Qed.

Lemma assembly_failure_origin_witness :
  assemble_default_config Scenarios.no_concurrency_conf []
  = (inl (SampleConf.not_found "celery" "WORKER_CONCURRENCY"),
     [LogRecord DEBUG result_backend_debug]) /\
  (SampleConf.not_found "celery" "WORKER_CONCURRENCY" = sentinel_kwargs_error \/
   Some (SampleConf.not_found "celery" "WORKER_CONCURRENCY")
     ∈ Scenarios.assembly_reads Scenarios.no_concurrency_conf).
Proof.
  assert (Hasm : assemble_default_config Scenarios.no_concurrency_conf []
                 = (inl (SampleConf.not_found "celery" "WORKER_CONCURRENCY"),
                    [LogRecord DEBUG result_backend_debug])) by evaluate.
  split; [exact Hasm |].
  exact (assembly_failure_origin Scenarios.no_concurrency_conf [] _ _ Hasm).
Defined.
